(** * Drowsiness detection: the temporal decision core, embedded and verified

    A shallow embedding of [drowsiness_detector.py] (class
    [DrowsinessDetector]), of the live-session and video functions of
    [streamlit_app.py], of [realtime_detector.py] and of [setup.py].

    Modelling conventions.
    - Python [float] is IEEE 754 binary64: Rocq's primitive [float], with the
      comparison [<] as [PrimFloat.ltb] (false whenever an operand is NaN).
    - Python [int] is unbounded: [Z].
    - A frame reaches the model as the list of eye aspect ratios of the faces
      the detector found in it, in detection order (lines 110-124 of
      [process_frame]: resizing, grey conversion, [self.detect],
      [self.predict] and the landmark arithmetic produce that list).  Drawing
      on the frame ([cv2.drawContours], [cv2.putText]) changes pixels only and
      is left out; the returned frame is not modelled.
    - The file system is a finite map from paths to file contents; a file
      either holds a JSON document or bytes on which [json.load] raises.
    - [datetime.now()] reads a clock that the world supplies; each call
      consumes one reading.
    - A call into a library that can raise on what it finds ([mixer.init],
      [dlib.shape_predictor], [pkill], [cv2.VideoCapture]) ends as a record
      of outcomes says; a function that can raise returns a [result]. *)

From Stdlib Require Import ZArith Bool Lia Floats.
From stdpp Require Import base option list gmap strings pretty.

#[local] Open Scope Z_scope.

(** ** Python numbers *)

(** [float(n)] for an [int] [n]: the nearest binary64 value, ties to even. *)
Definition Z2float (z : Z) : float :=
  SF2Prim (binary_normalize prec emax z 0 false).

(** [a / b] on two [int]s.  Python rounds the exact quotient once; dividing
    the two converted operands gives the same float whenever both are below
    [2^53] in magnitude, which covers frame counters and microsecond spans. *)
Definition truediv (a b : Z) : float :=
  PrimFloat.div (Z2float a) (Z2float b).

(** A value that is an [int] on one branch and a [float] on the other, as in
    [x if xs else 0]. *)
Inductive number :=
  | PyInt (z : Z)
  | PyFloat (f : float).

(** Python's [==] between a number and the literal [0]. *)
Definition is_zero (n : number) : bool :=
  match n with
  | PyInt z => z =? 0
  | PyFloat f => PrimFloat.eqb f 0%float
  end.

Definition number_is_nan (n : number) : bool :=
  match n with
  | PyInt _ => false
  | PyFloat f => PrimFloat.is_nan f
  end.

(** ** JSON documents and files *)

#[warnings="-register-all"]
Inductive json :=
  | JNull
  | JBool (b : bool)
  | JNum (n : number)
  | JStr (s : string)
  | JList (items : list json)
  | JDict (fields : list (string * json)).

(** What [open(path).read()] followed by [json.load] sees: a document, or
    text that does not parse.  A document written by [json.dump] is read back
    by [json.load] as the same value. *)
Inductive file :=
  | Unparseable
  | Document (j : json).

(** Python truthiness of a loaded JSON value. *)
Definition truthy (j : json) : bool :=
  match j with
  | JNull => false
  | JBool b => b
  | JNum (PyInt z) => negb (z =? 0)
  | JNum (PyFloat f) => negb (PrimFloat.eqb f 0%float)
  | JStr s => negb (String.eqb s "")
  | JList l => negb (Nat.eqb (length l) 0)
  | JDict l => negb (Nat.eqb (length l) 0)
  end.

Fixpoint dict_get (key : string) (fields : list (string * json)) : option json :=
  match fields with
  | [] => None
  | (k, v) :: rest => if String.eqb k key then Some v else dict_get key rest
  end.

(** ** Exceptions *)

Inductive exn :=
  | FileNotFoundError (path : string)
  | AttributeError (what : string)
  | PygameError (msg : string)         (* [pygame.error] *)
  | RuntimeError (msg : string)        (* what [dlib] raises on a bad model *)
  | ZeroDivisionError
  | StreamlitAPIException (msg : string).

Inductive result (A : Type) :=
  | Ok (a : A)
  | Raise (e : exn).
Arguments Ok {A} a.
Arguments Raise {A} e.

(** ** The world outside the detector *)

(** Microseconds since the epoch ([datetime] has microsecond resolution). *)
Definition datetime := Z.

(** [(t1 - t0).total_seconds()]. *)
Definition total_seconds (t1 t0 : datetime) : float :=
  truediv (t1 - t0) 1000000.

Record World := mkWorld {
  fs : gmap string file;       (* the files that exist, by path *)
  clock : nat -> datetime;     (* the n-th reading of [datetime.now()] *)
  reads : nat;                 (* readings consumed so far *)
  plays : nat;                 (* calls of [mixer.music.play()] so far *)
}.

Definition path_exists (p : string) (w : World) : bool :=
  bool_decide (is_Some (fs w !! p)).

Definition now (w : World) : datetime * World :=
  (clock w (reads w), mkWorld (fs w) (clock w) (S (reads w)) (plays w)).

Definition music_play (w : World) : World :=
  mkWorld (fs w) (clock w) (reads w) (S (plays w)).

Definition write_file (p : string) (c : file) (w : World) : World :=
  mkWorld (<[p := c]> (fs w)) (clock w) (reads w) (plays w).

(** Library functions the program calls and this development does not
    define: date formatting and numpy's reductions over a non-empty list. *)
Class Platform := {
  isoformat : datetime -> string;
  strftime_YmdHMS : datetime -> string;
  np_mean : list float -> float;
  np_min : list float -> float;
  np_max : list float -> float;
}.

(** How the library calls of a constructor end that can raise on what they
    find: [None] when the call returns, the exception otherwise. *)
Record Libraries := mkLibraries {
  mixer_init : option exn;                 (* [mixer.init()] *)
  music_load : string -> option exn;       (* [mixer.music.load(path)] *)
  shape_predictor : string -> option exn;  (* [dlib.shape_predictor(path)] *)
}.

(** ** The detector object *)

Record DrowsyEvent := mkEvent {
  timestamp : string;
  ear_value : float;
  session_duration : float;
}.

Record Detector := mkDetector {
  thresh : float;
  frame_check : Z;
  model_path : string;
  music_path : string;
  log_file : string;
  flag : Z;
  session_start : datetime;
  drowsy_events : list DrowsyEvent;
  total_frames : Z;
  drowsy_frames : Z;
  ear_history : list float;
}.

(** The dictionary [results] of [process_frame]. *)
Record Results := mkResults {
  drowsy : bool;
  ear : float;
  faces_detected : nat;
  alert_triggered : bool;
}.

Section Detector.
Context `{Platform}.

(** [reset_session], lines 40-47. *)
Definition reset_session (d : Detector) (w : World) : Detector * World :=
  let '(t, w) := now w in
  (mkDetector (thresh d) (frame_check d) (model_path d) (music_path d)
     (log_file d) 0 t [] 0 0 [], w).

(** [__init__], lines 13-38.  The three library calls that can raise do so
    as [libs] says; the objects they return carry no state the rest of the
    model reads. *)
Definition init (libs : Libraries) (thresh : float) (frame_check : Z)
    (model_path music_path log_file : string) (w : World)
  : result Detector * World :=
  match mixer_init libs with
  | Some e => (Raise e, w)
  | None =>
      match (if path_exists music_path w then music_load libs music_path
             else None) with
      | Some e => (Raise e, w)
      | None =>
          if path_exists model_path w then
            match shape_predictor libs model_path with
            | Some e => (Raise e, w)
            | None =>
                let '(d, w) :=
                  reset_session
                    (mkDetector thresh frame_check model_path music_path
                       log_file 0 0 [] 0 0 []) w in
                (Ok d, w)
            end
          else (Raise (FileNotFoundError model_path), w)
      end
  end.

(** [log_drowsy_event], lines 57-64. *)
Definition log_drowsy_event (ear_value : float) (d : Detector) (w : World)
  : Detector * World :=
  let '(t1, w) := now w in
  let '(t2, w) := now w in
  let event :=
    mkEvent (isoformat t1) ear_value (total_seconds t2 (session_start d)) in
  (mkDetector (thresh d) (frame_check d) (model_path d) (music_path d)
     (log_file d) (flag d) (session_start d) (drowsy_events d ++ [event])
     (total_frames d) (drowsy_frames d) (ear_history d), w).

(** The body of [for subject in subjects], lines 116-166, for one face whose
    eye aspect ratio is [e] (the source's local [ear]). *)
Definition process_subject (play_sound : bool) (st : Results * Detector * World)
    (e : float) : Results * Detector * World :=
  let '(r, d, w) := st in
  let r := mkResults (drowsy r) e (faces_detected r) (alert_triggered r) in
  let d :=
    mkDetector (thresh d) (frame_check d) (model_path d) (music_path d)
      (log_file d) (flag d) (session_start d) (drowsy_events d)
      (total_frames d) (drowsy_frames d) (ear_history d ++ [e]) in
  if PrimFloat.ltb e (thresh d) then
    let d :=
      mkDetector (thresh d) (frame_check d) (model_path d) (music_path d)
        (log_file d) (flag d + 1) (session_start d) (drowsy_events d)
        (total_frames d) (drowsy_frames d + 1) (ear_history d) in
    let r := mkResults true (ear r) (faces_detected r) (alert_triggered r) in
    if frame_check d <=? flag d then
      let r := mkResults (drowsy r) (ear r) (faces_detected r) true in
      let w :=
        if play_sound && path_exists (music_path d) w then music_play w
        else w in
      if flag d =? frame_check d then
        let '(d, w) := log_drowsy_event e d w in (r, d, w)
      else (r, d, w)
    else (r, d, w)
  else
    let d :=
      mkDetector (thresh d) (frame_check d) (model_path d) (music_path d)
        (log_file d) 0 (session_start d) (drowsy_events d)
        (total_frames d) (drowsy_frames d) (ear_history d) in
    (r, d, w).

(** [process_frame], lines 98-168; [subjects] are the eye aspect ratios of
    the faces found in the frame. *)
Definition process_frame (subjects : list float) (play_sound : bool)
    (d : Detector) (w : World) : Results * Detector * World :=
  let results := mkResults false 0%float 0 false in
  let d :=
    mkDetector (thresh d) (frame_check d) (model_path d) (music_path d)
      (log_file d) (flag d) (session_start d) (drowsy_events d)
      (total_frames d + 1) (drowsy_frames d) (ear_history d) in
  let results :=
    mkResults (drowsy results) (ear results) (length subjects)
      (alert_triggered results) in
  fold_left (process_subject play_sound) subjects (results, d, w).

(** The dictionary a [DrowsyEvent] is in the source, as dumped. *)
Definition event_json (ev : DrowsyEvent) : json :=
  JDict [("timestamp", JStr (timestamp ev));
         ("ear_value", JNum (PyFloat (ear_value ev)));
         ("session_duration", JNum (PyFloat (session_duration ev)))]%string.

(** [(self.drowsy_frames / max(self.total_frames, 1)) * 100]. *)
Definition drowsiness_percentage_of (d : Detector) : float :=
  PrimFloat.mul (truediv (drowsy_frames d) (Z.max (total_frames d) 1))
    (Z2float 100).

(** [float(f(self.ear_history)) if self.ear_history else 0]. *)
Definition stat_or_zero (f : list float -> float) (history : list float)
  : number :=
  match history with
  | [] => PyInt 0
  | _ :: _ => PyFloat (f history)
  end.

(** [session_data] of [save_session_log], lines 68-81, with [t] the reading
    of [datetime.now()] on line 70. *)
Definition session_data (d : Detector) (t : datetime) : json :=
  JDict [("session_id", JStr (isoformat (session_start d)));
         ("duration_seconds",
            JNum (PyFloat (total_seconds t (session_start d))));
         ("total_frames", JNum (PyInt (total_frames d)));
         ("drowsy_frames", JNum (PyInt (drowsy_frames d)));
         ("drowsy_events",
            JNum (PyInt (Z.of_nat (length (drowsy_events d)))));
         ("drowsiness_percentage", JNum (PyFloat (drowsiness_percentage_of d)));
         ("events", JList (map event_json (drowsy_events d)));
         ("ear_stats",
            JDict [("mean", JNum (stat_or_zero np_mean (ear_history d)));
                   ("min", JNum (stat_or_zero np_min (ear_history d)));
                   ("max", JNum (stat_or_zero np_max (ear_history d)))])
        ]%string.

(** Lines 84-90 and 187-193: the value [json.load] gives for the log file,
    [[]] when the file is missing or does not parse. *)
Definition read_logs (path : string) (w : World) : json :=
  match fs w !! path with
  | Some (Document j) => j
  | Some Unparseable => JList []
  | None => JList []
  end.

(** [save_session_log], lines 66-96.  [logs.append] exists on a list only:
    a log file holding any other JSON value makes line 92 raise, outside the
    [try], and the file is left as it was. *)
Definition save_session_log (d : Detector) (w : World) : result unit * World :=
  let '(t, w) := now w in
  let data := session_data d t in
  match read_logs (log_file d) w with
  | JList logs =>
      (Ok tt, write_file (log_file d) (Document (JList (logs ++ [data]))) w)
  | _ => (Raise (AttributeError "append"), w)
  end.

(** [load_historical_logs], lines 185-193. *)
Definition load_historical_logs (d : Detector) (w : World) : json :=
  read_logs (log_file d) w.

(** The dictionary [get_session_stats] returns. *)
Record Stats := mkStats {
  st_session_duration : float;
  st_total_frames : Z;
  st_drowsy_frames : Z;
  st_drowsy_events : nat;
  st_drowsiness_percentage : float;
  st_current_ear : number;
  st_avg_ear : number;
}.

(** [get_session_stats], lines 170-183. *)
Definition get_session_stats (d : Detector) (w : World) : Stats * World :=
  let '(current_time, w) := now w in
  let duration := total_seconds current_time (session_start d) in
  (mkStats duration (total_frames d) (drowsy_frames d)
     (length (drowsy_events d)) (drowsiness_percentage_of d)
     (stat_or_zero (fun h => List.last h 0%float) (ear_history d))
     (stat_or_zero np_mean (ear_history d)), w).

(** ** Sessions: sequences of calls on one detector *)

Inductive call :=
  | ProcessFrame (subjects : list float) (play_sound : bool)
  | ResetSession.

Definition step (st : Detector * World) (c : call) : Detector * World :=
  let '(d, w) := st in
  match c with
  | ProcessFrame subjects play_sound =>
      let '(_, d, w) := process_frame subjects play_sound d w in (d, w)
  | ResetSession => reset_session d w
  end.

Definition run (calls : list call) (st : Detector * World) : Detector * World :=
  fold_left step calls st.

(** A frame in which exactly one face is seen. *)
Definition single (play_sound : bool) (e : float) : call :=
  ProcessFrame [e] play_sound.

End Detector.

(** ** The live session ([streamlit_app.py])

    [start_live_detection] starts a daemon thread that runs
    [run_live_detection].  The thread body is modelled in its two halves:
    up to [subprocess.Popen] (lines 176-200), and from the return of
    [process.wait()] on (lines 203-209).  A system is the world, the threads
    started so far and the detection processes launched and still running. *)

Inductive thread :=
  | Started                                  (* [thread.start()] was called *)
  | Waiting (status : list (string * json))  (* inside [process.wait()] *)
  | Finished.

(** Where the first half of the thread body raises, if it does. *)
Inductive failure :=
  | NoFailure
  | MakedirsFails (msg : string)
  | PopenFails (msg : string).

Record System := mkSystem {
  world : World;
  threads : list thread;
  procs : list (list string);   (* command lines of running detectors *)
  pkill_ends : bool;            (* whether [pkill] runs and ends them *)
}.

Definition status_file : string := "live_session_status.json".

(** [status[key] = value] on a dictionary. *)
Fixpoint dict_set (key : string) (value : json)
    (fields : list (string * json)) : list (string * json) :=
  match fields with
  | [] => [(key, value)]
  | (k, v) :: rest =>
      if String.eqb k key then (k, value) :: rest
      else (k, v) :: dict_set key value rest
  end.

(** [status.get("active", False)], as a condition. *)
Definition is_active (status : list (string * json)) : bool :=
  truthy (default (JBool false) (dict_get "active" status)).

Section App.
Context `{Platform}.

(** [check_live_session_status], lines 161-171. *)
Definition check_live_session_status (w : World) : json :=
  match fs w !! status_file with
  | Some (Document status) => status
  | Some Unparseable => JDict [("active", JBool false)]%string
  | None => JDict [("active", JBool false)]%string
  end.

(** [start_live_detection], lines 173-219: it creates and starts the thread
    and returns; it reads no status and raises nothing. *)
Definition start_live_detection (sys : System) : System :=
  mkSystem (world sys) (threads sys ++ [Started]) (procs sys) (pkill_ends sys).

(** [run_live_detection] in thread [i], lines 176-200 and the handler of
    lines 211-215. *)
Definition run_live_detection_begin (i : nat) (f : failure) (sys : System)
  : System :=
  match threads sys !! i with
  | Some Started =>
      match f with
      | MakedirsFails msg =>
          let status := [("active", JBool false); ("error", JStr msg)]%string in
          mkSystem (write_file status_file (Document (JDict status)) (world sys))
            (<[i := Finished]> (threads sys)) (procs sys) (pkill_ends sys)
      | _ =>
          let '(t1, w) := now (world sys) in
          let timestamp := strftime_YmdHMS t1 in
          let output_file :=
            ("live_sessions/session_" +:+ timestamp +:+ ".mp4")%string in
          let '(t2, w) := now w in
          let status :=
            [("active", JBool true);
             ("start_time", JStr (isoformat t2));
             ("output_file", JStr output_file);
             ("session_id", JStr timestamp)]%string in
          let w := write_file status_file (Document (JDict status)) w in
          let cmd :=
            ["python"; "realtime_detector.py"; "--output"; output_file;
             "--auto_stop"; "120"]%string in
          match f with
          | PopenFails msg =>
              let status :=
                [("active", JBool false); ("error", JStr msg)]%string in
              mkSystem (write_file status_file (Document (JDict status)) w)
                (<[i := Finished]> (threads sys)) (procs sys) (pkill_ends sys)
          | _ =>
              mkSystem w (<[i := Waiting status]> (threads sys))
                (procs sys ++ [cmd]) (pkill_ends sys)
          end
      end
  | _ => sys
  end.

(** [run_live_detection] in thread [i], lines 203-209, once its process has
    exited. *)
Definition run_live_detection_end (i : nat) (sys : System) : System :=
  match threads sys !! i with
  | Some (Waiting status) =>
      let status := dict_set "active" (JBool false) status in
      let '(t, w) := now (world sys) in
      let status := dict_set "end_time" (JStr (isoformat t)) status in
      let status := dict_set "completed" (JBool true) status in
      mkSystem (write_file status_file (Document (JDict status)) w)
        (<[i := Finished]> (threads sys)) (procs sys) (pkill_ends sys)
  | _ => sys
  end.

(** [live_detection_tab], lines 221-273, with what [st.button] returns for
    the keys [start_live] and [stop_live] when it is called.  [pkill -f
    realtime_detector.py] is run with [check=False] inside [try]/[except:
    pass]: it ends the running detectors when it works and nothing happens
    when it does not; the status record is rewritten either way.  The list
    of recorded sessions below the buttons is display only. *)
Definition live_detection_tab (start_live stop_live : bool) (sys : System)
  : result System :=
  match check_live_session_status (world sys) with
  | JDict status =>
      if is_active status then
        if stop_live then
          let status := dict_set "active" (JBool false) status in
          Ok (mkSystem
                (write_file status_file (Document (JDict status)) (world sys))
                (threads sys) (if pkill_ends sys then [] else procs sys)
                (pkill_ends sys))
        else Ok sys
      else
        if start_live then Ok (start_live_detection sys) else Ok sys
  | _ => Raise (AttributeError "get")
  end.

End App.

(** ** Video analysis ([streamlit_app.py])

    The other place where drowsy frames are counted: the video tab keeps the
    verdict of every frame and counts the frames whose verdict is drowsy. *)

(** What [cv2.VideoCapture] finds at a path.  The frame count is the
    integer [int] makes of the number OpenCV reports, which is taken to be
    finite. *)
Record Video := mkVideo {
  video_opened : bool;                (* [cap.isOpened()] *)
  video_frame_count : Z;              (* [int(cap.get(CAP_PROP_FRAME_COUNT))] *)
  video_fps : float;                  (* [cap.get(cv2.CAP_PROP_FPS)] *)
  video_frames : list (list float);   (* the frames [cap.read()] delivers *)
}.

(** One entry of [frame_results], lines 376-383. *)
Record FrameResult := mkFrameResult {
  fr_frame : Z;
  fr_timestamp : float;
  fr_ear : float;
  fr_drowsy : bool;
  fr_alert : bool;
  fr_faces : nat;
}.

Section Video.
Context `{Platform}.

(** The loop of [process_video_file_path], lines 370-392, over the frames
    that [cap.read()] delivers.  [frame_count / fps] on line 378 raises
    [ZeroDivisionError] when [fps] is zero, [frame_count / total_frames] on
    line 386 when the reported frame count is 0, and a negative reported
    frame count gives [progress_bar.progress] a negative value, which it
    refuses.  The loop ends after frame 2001 ([frame_count > 2000]). *)
Fixpoint video_loop (fps : float) (total_frames : Z)
    (frames : list (list float)) (frame_count : Z) (d : Detector) (w : World)
  : result (list FrameResult) * Detector * World :=
  match frames with
  | [] => (Ok [], d, w)
  | subjects :: rest =>
      let '(results, d, w) := process_frame subjects false d w in
      if PrimFloat.eqb fps 0%float then (Raise ZeroDivisionError, d, w)
      else
        let entry :=
          mkFrameResult frame_count (PrimFloat.div (Z2float frame_count) fps)
            (ear results) (drowsy results) (alert_triggered results)
            (faces_detected results) in
        let frame_count := frame_count + 1 in
        if total_frames =? 0 then (Raise ZeroDivisionError, d, w)
        else if total_frames <? 0 then
          (Raise (StreamlitAPIException "progress"), d, w)
        else if 2000 <? frame_count then (Ok [entry], d, w)
        else
          let '(later, d, w) :=
            video_loop fps total_frames rest frame_count d w in
          match later with
          | Ok frame_results => (Ok (entry :: frame_results), d, w)
          | Raise e => (Raise e, d, w)
          end
  end.

(** [process_video_file_path], lines 355-394: [None] for a capture that
    does not open, before the session is reset. *)
Definition process_video_file_path (v : Video) (d : Detector) (w : World)
  : result (option (list FrameResult)) * Detector * World :=
  if negb (video_opened v) then (Ok None, d, w)
  else
    let '(d, w) := reset_session d w in
    let '(looped, d, w) :=
      video_loop (video_fps v) (video_frame_count v) (video_frames v) 0 d w in
    match looped with
    | Ok frame_results => (Ok (Some frame_results), d, w)
    | Raise e => (Raise e, d, w)
    end.

End Video.

(** [total_frames] and [drowsy_frames] of [display_video_results], lines
    414-415. *)
Definition video_total_frames (frame_results : list FrameResult) : nat :=
  length frame_results.

Definition video_drowsy_frames (frame_results : list FrameResult) : nat :=
  length (List.filter fr_drowsy frame_results).




Section Upload.
Context `{Platform}.


End Upload.

(** ** The command-line detector ([realtime_detector.py]) *)

(** The parsed arguments, lines 7-18; an option that was not given is
    [None]. *)
Record Args := mkArgs {
  arg_thresh : float;
  arg_frame_check : Z;
  arg_model : string;
  arg_music : string;
  arg_camera : Z;
  arg_video : option string;
  arg_output : option string;
  arg_auto_stop : option Z;
}.

(** [if args.video:], [if args.output:]: an absent or empty string is
    false. *)
Definition given (o : option string) : bool :=
  match o with
  | Some s => negb (String.eqb s "")
  | None => false
  end.

(** What one turn of the loop finds: the faces of the frame read, the value
    of [time.time()] and the value of [cv2.waitKey(1)]; or a
    [KeyboardInterrupt], taken to arrive between two turns.  The end of the
    list is a [cap.read()] that returns no frame. *)
Inductive tick :=
  | Tick (subjects : list float) (current_time : float) (key : Z)
  | KeyboardInterrupt.

(** What the run finds outside the detector.  Width and height are the
    integers [int] makes of the numbers OpenCV reports, which are taken to be
    finite. *)
Record Source := mkSource {
  libraries : Libraries;  (* how the constructor's library calls end *)
  opened : bool;          (* [cap.isOpened()] *)
  width : Z;              (* [int(cap.get(cv2.CAP_PROP_FRAME_WIDTH))] *)
  height : Z;
  writer_opens : bool;    (* whether [cv2.VideoWriter] can create its file *)
  start_time : float;     (* [time.time()] on line 67 *)
  end_time : float;       (* [time.time()] on line 132 *)
  ticks : list tick;
}.

(** The path of [--output]. *)
Definition output_path (args : Args) : string :=
  default ""%string (arg_output args).

(** Line 68: [start_time + args.auto_stop if args.auto_stop else None]. *)
Definition auto_stop_time_of (start : float) (auto_stop : option Z)
  : option float :=
  match auto_stop with
  | Some n => if n =? 0 then None else Some (PrimFloat.add start (Z2float n))
  | None => None
  end.

(** Line 85: [auto_stop_time and current_time > auto_stop_time]. *)
Definition auto_stop_due (auto_stop_time : option float) (current_time : float)
  : bool :=
  match auto_stop_time with
  | Some t => negb (PrimFloat.eqb t 0%float) && PrimFloat.ltb t current_time
  | None => false
  end.

(** How [main] ends. *)
Inductive outcome :=
  | InitFailed (e : exn)                      (* lines 29-31 *)
  | SourceNotOpened                           (* lines 41-43 *)
  | WriterSizeError                           (* [ZeroDivisionError], line 54 *)
  | SummaryError (frame_count : Z) (d : Detector)
                                              (* [ZeroDivisionError], line 142 *)
  | Completed (frame_count : Z) (written : nat) (d : Detector)
      (saved : result unit).

Section Realtime.
Context `{Platform}.

(** The loop of lines 71-125 with [frame_count], the number of frames
    written to the output, the detector and the world. *)
Fixpoint main_loop (play_sound record : bool) (auto_stop_time : option float)
    (ticks : list tick) (frame_count : Z) (written : nat)
    (d : Detector) (w : World) : Z * nat * Detector * World :=
  match ticks with
  | [] => (frame_count, written, d, w)
  | KeyboardInterrupt :: _ => (frame_count, written, d, w)
  | Tick subjects current_time key :: rest =>
      let frame_count := frame_count + 1 in
      if auto_stop_due auto_stop_time current_time then
        (frame_count, written, d, w)
      else
        let '(results, d, w) := process_frame subjects play_sound d w in
        let written := if record then S written else written in
        let key := Z.land key 255 in
        if key =? 113 then (frame_count, written, d, w)
        else if key =? 115 then
          let '(stats, w) := get_session_stats d w in
          main_loop play_sound record auto_stop_time rest frame_count
            written d w
        else if key =? 114 then
          let '(d, w) := reset_session d w in
          main_loop play_sound record auto_stop_time rest frame_count
            written d w
        else
          main_loop play_sound record auto_stop_time rest frame_count
            written d w
  end.

(** Lines 52-54 and 165: [cv2.VideoWriter] creates the output file when it
    can open it, and [out.release()] completes it. *)
Definition writer_file (args : Args) (src : Source) (w : World) : World :=
  if given (arg_output args) && writer_opens src
  then write_file (output_path args) Unparseable w
  else w.

(** [main], lines 6-166. *)
Definition main (args : Args) (src : Source) (w : World) : outcome * World :=
  match init (libraries src) (arg_thresh args) (arg_frame_check args)
          (arg_model args) (arg_music args) "drowsiness_log.json" w with
  | (Raise e, w) => (InitFailed e, w)
  | (Ok detector, w) =>
      if negb (opened src) then (SourceNotOpened, w)
      else if given (arg_output args) && (width src =? 0) then
        (WriterSizeError, w)
      else
        let w := writer_file args src w in
        let auto_stop_time :=
          auto_stop_time_of (start_time src) (arg_auto_stop args) in
        let '(frame_count, written, detector, w) :=
          main_loop (negb (given (arg_video args))) (given (arg_output args))
            auto_stop_time (ticks src) 0 0 detector w in
        let total_time := PrimFloat.sub (end_time src) (start_time src) in
        let '(stats, w) := get_session_stats detector w in
        if PrimFloat.eqb total_time 0%float then
          (SummaryError frame_count detector, w)
        else
          let '(saved, w) := save_session_log detector w in
          (Completed frame_count written detector saved,
           writer_file args src w)
  end.

End Realtime.

(** The entries of a log as [save_session_log] takes them: none for a
    missing or unparseable file, and no list at all for any other
    document. *)
Definition log_entries (path : string) (w : World) : option (list json) :=
  match fs w !! path with
  | Some (Document (JList logs)) => Some logs
  | Some (Document _) => None
  | Some Unparseable => Some []
  | None => Some []
  end.

(** Whether the library calls and the file checks of the constructor all
    pass: the mixer initialises, the music file loads if there is one, and
    the model file exists and loads. *)
Definition init_succeeds (libs : Libraries) (model_path music_path : string)
    (w : World) : bool :=
  bool_decide (mixer_init libs = None)
  && (negb (path_exists music_path w)
      || bool_decide (music_load libs music_path = None))
  && path_exists model_path w
  && bool_decide (shape_predictor libs model_path = None).


(** A turn of the loop that neither quits, nor resets, nor interrupts. *)
Definition carries_on (t : tick) : Prop :=
  match t with
  | Tick _ _ key => Z.land key 255 <> 113 /\ Z.land key 255 <> 114
  | KeyboardInterrupt => False
  end.

(** ** Settings ([streamlit_app.py])

    [settings_tab], lines 493-513: [new_thresh] and [new_frame_check] are
    what the two sliders return, [apply] what the button returns.  The
    attributes are assigned on the live detector; the session is not
    reset. *)
Definition settings_tab (apply : bool) (new_thresh : float)
    (new_frame_check : Z) (d : Detector) : Detector :=
  if apply then
    mkDetector new_thresh new_frame_check (model_path d) (music_path d)
      (log_file d) (flag d) (session_start d) (drowsy_events d)
      (total_frames d) (drowsy_frames d) (ear_history d)
  else d.

(** ** Installation ([setup.py]) *)

Definition model_file : string :=
  "models/shape_predictor_68_face_landmarks.dat".

Definition model_archive : string :=
  "models/shape_predictor_68_face_landmarks.dat.bz2".

(** How [urllib.request.urlretrieve] ends: with the archive written, or with
    an exception, before or after it created the target file. *)
Inductive fetch :=
  | Fetched
  | FetchFails (file_created : bool).

Definition remove_file (p : string) (w : World) : World :=
  mkWorld (delete p (fs w)) (clock w) (reads w) (plays w).

(** [download_models], lines 31-57.  [extracts] tells whether reading the
    archive through [bz2.BZ2File] succeeds; the target file is opened for
    writing before the archive is read. *)
Definition download_models (net : fetch) (extracts : bool) (w : World)
  : bool * World :=
  if negb (path_exists model_file w) then
    match net with
    | FetchFails file_created =>
        (false, if file_created then write_file model_archive Unparseable w
                else w)
    | Fetched =>
        let w := write_file model_archive Unparseable w in
        let w := write_file model_file Unparseable w in
        if extracts then (true, remove_file model_archive w)
        else (false, w)
    end
  else (true, w).

(** [create_sample_audio], lines 59-85; [created] tells whether writing the
    sound succeeds. *)
Definition create_sample_audio (created : bool) (w : World) : World :=
  if negb (path_exists "music.wav" w) then
    if created then write_file "music.wav" Unparseable w else w
  else w.

(** [create_run_scripts], lines 98-131: four files of shell and batch
    text. *)
Definition create_run_scripts (w : World) : World :=
  write_file "run_realtime.bat" Unparseable
    (write_file "run_webapp.bat" Unparseable
       (write_file "run_realtime.sh" Unparseable
          (write_file "run_webapp.sh" Unparseable w))).

(** [main] of [setup.py], lines 133-170; [installs] is the outcome of
    [install_requirements].  Directories are not files and are not
    modelled. *)
Definition setup_main (installs : bool) (net : fetch) (extracts created : bool)
    (w : World) : bool * World :=
  if negb installs then (false, w)
  else
    let '(ok, w) := download_models net extracts w in
    if negb ok then (false, w)
    else (true, create_run_scripts (create_sample_audio created w)).

(** * Vocabulary of the properties *)

(** [low d e]: the test [ear < self.thresh] on line 137. *)
Definition low (d : Detector) (e : float) : bool := PrimFloat.ltb e (thresh d).

(** The configuration a detector was built with. *)
Definition same_config (d d' : Detector) : Prop :=
  thresh d' = thresh d /\ frame_check d' = frame_check d /\
  model_path d' = model_path d /\ music_path d' = music_path d /\
  log_file d' = log_file d.

(** Counters are non-negative, no reading is counted drowsy without being
    recorded in the history, and a session with no frame has no history. *)
Definition counters_ok (d : Detector) : Prop :=
  0 <= total_frames d /\
  0 <= drowsy_frames d <= Z.of_nat (length (ear_history d)) /\
  (total_frames d = 0 -> ear_history d = []).

(** Every logged event carries a ratio below the threshold. *)
Definition events_below (d : Detector) : Prop :=
  Forall (fun ev => PrimFloat.ltb (ear_value ev) (thresh d) = true)
    (drowsy_events d).



(** The lengths of the maximal runs of readings below [t] in [es], in order,
    when a run of length [cur] is in progress before [es]; two neighbouring
    readings that are not low delimit a run of length 0. *)
Fixpoint low_runs (t : float) (cur : nat) (es : list float) : list nat :=
  match es with
  | [] => [cur]
  | e :: rest =>
      if PrimFloat.ltb e t then low_runs t (S cur) rest
      else cur :: low_runs t 0 rest
  end.

(** The runs long enough to raise the alert. *)
Definition alert_runs (t : float) (fc : Z) (es : list float) : nat :=
  length (List.filter (fun n => fc <=? Z.of_nat n) (low_runs t 0 es)).

(** The detector [d] with its frame counter replaced. *)
Definition with_total (n : Z) (d : Detector) : Detector :=
  mkDetector (thresh d) (frame_check d) (model_path d) (music_path d)
    (log_file d) (flag d) (session_start d) (drowsy_events d) n
    (drowsy_frames d) (ear_history d).

(** A call that shows the detector at most one face. *)
Definition at_most_one_face (c : call) : Prop :=
  match c with
  | ProcessFrame subjects _ => (length subjects <= 1)%nat
  | ResetSession => True
  end.

(** The frames a detector has processed since its last reset, given the
    frames [acc] processed before [calls]. *)
Fixpoint since_reset (calls : list call) (acc : list (list float))
  : list (list float) :=
  match calls with
  | [] => acc
  | ProcessFrame subjects _ :: rest => since_reset rest (acc ++ [subjects])
  | ResetSession :: rest => since_reset rest []
  end.

(** A call that cannot sound the alarm by itself. *)
Definition silent (c : call) : Prop :=
  match c with
  | ProcessFrame _ play_sound => play_sound = false
  | ResetSession => True
  end.

(** Events and the run in progress account for the drowsy readings: every
    event stands for [frame_check] of them, and the readings of the current
    run are counted on top unless they are part of its event. *)
Definition events_accounted (d : Detector) : Prop :=
  0 <= flag d /\
  (frame_check d <= flag d -> 1 <= Z.of_nat (length (drowsy_events d))) /\
  frame_check d * Z.of_nat (length (drowsy_events d))
  + (if flag d <? frame_check d then flag d else flag d - frame_check d)
  <= drowsy_frames d.

(** Whether the run records its video to [p]: [--output p] is given and the
    writer opens the file. *)
Definition records_to (args : Args) (src : Source) (p : string) : bool :=
  given (arg_output args) && writer_opens src
  && String.eqb (output_path args) p.

(** ** A platform to run the model on

    A concrete [Platform] for evaluating the model on examples: dates print
    as their microsecond count in decimal, and the reductions fold from the
    left. *)
Module Demo.

Definition fold_floats (f : float -> float -> float) (l : list float) : float :=
  match l with
  | [] => 0%float
  | x :: rest => fold_left f rest x
  end.

Definition fmin (a b : float) : float := if PrimFloat.ltb b a then b else a.
Definition fmax (a b : float) : float := if PrimFloat.ltb a b then b else a.

Definition platform : Platform := {|
  isoformat := fun t => pretty t;
  strftime_YmdHMS := fun t => pretty t;
  np_mean := fun l =>
    PrimFloat.div (fold_floats PrimFloat.add l) (Z2float (Z.of_nat (length l)));
  np_min := fold_floats fmin;
  np_max := fold_floats fmax;
|}.

(** Library calls that all return. *)
Definition libraries : Libraries :=
  mkLibraries None (fun _ => None) (fun _ => None).

(** A world with the model file and an empty log directory, whose clock
    advances one second per reading. *)
Definition world : World :=
  mkWorld {[ "models/shape_predictor_68_face_landmarks.dat"%string := Unparseable ]}
    (fun n => 1000000 * Z.of_nat n) 0 0.

(** A detector as [DrowsinessDetector(0.25, 3)] leaves it. *)
Definition detector : Detector :=
  mkDetector 0.25%float 3 "models/shape_predictor_68_face_landmarks.dat"
    "music.wav" "drowsiness_log.json" 0 0 [] 0 0 [].

(** A system in which one live session is running: the status record shows
    [active] and one detector process is alive. *)
Definition live_system : System :=
  run_live_detection_begin (H := platform) 0 NoFailure
    (start_live_detection (mkSystem world [] [] true)).

(** Arguments and a source for the examples: the defaults of the parser
    with [frame_check] 3, and a camera that delivers three frames, the
    second with the key [s] pressed. *)
Definition args : Args :=
  mkArgs 0.25%float 3 "models/shape_predictor_68_face_landmarks.dat"
    "music.wav" 0 None None None.

Definition source : Source :=
  mkSource libraries true 640 480 true 100%float 101%float
    [Tick [0.125%float] 100.25%float (-1);
     Tick [0.125%float] 100.5%float 115;
     Tick [0.125%float] 100.75%float (-1)].

(** The world of the examples with the alert sound in place. *)
Definition world_with_music : World :=
  write_file "music.wav" Unparseable world.

(** The world of the examples with one entry in the session log. *)
Definition world_with_log : World :=
  write_file "drowsiness_log.json" (Document (JList [JStr "earlier"])) world.

(** The world of the examples with a log that holds a dictionary. *)
Definition world_with_bad_log : World :=
  write_file "drowsiness_log.json" (Document (JDict [])) world.

(** The status a live session of the examples writes when it begins. *)
Definition live_status : list (string * json) :=
  [("active", JBool true); ("start_time", JStr "1000000");
   ("output_file", JStr "live_sessions/session_0.mp4");
   ("session_id", JStr "0")]%string.

(** The arguments of the examples, for a run on a video file. *)
Definition video_args : Args :=
  mkArgs 0.25%float 3 "models/shape_predictor_68_face_landmarks.dat"
    "music.wav" 0 (Some "clip.mp4"%string) None None.

End Demo.

(** * Properties *)

Section Properties.
Context `{Platform}.

Ltac unfold_subject :=
  unfold process_subject, log_drowsy_event, now, music_play, low in *;
  cbn [thresh frame_check model_path music_path log_file flag session_start
       drowsy_events total_frames drowsy_frames ear_history
       drowsy ear faces_detected alert_triggered fs clock reads plays] in *.

Ltac split_subject :=
  unfold_subject;
  repeat match goal with
  | |- context [if ?b then _ else _] => destruct b eqn:?
  end;
  cbn [fst snd thresh frame_check model_path music_path log_file flag
       session_start drowsy_events total_frames drowsy_frames ear_history
       drowsy ear faces_detected alert_triggered fs clock reads plays] in *.

(** What one face does to the counters. *)
Lemma process_subject_counters ps r d w e :
  let d' := (process_subject ps (r, d, w) e).1.2 in
  same_config d d' /\
  flag d' = (if low d e then flag d + 1 else 0) /\
  drowsy_frames d' = drowsy_frames d + (if low d e then 1 else 0) /\
  total_frames d' = total_frames d /\
  session_start d' = session_start d /\
  ear_history d' = ear_history d ++ [e].
Proof.
  unfold same_config. split_subject; repeat split; try reflexivity; lia.
Qed.

(** What one face does to the event list: one event, carrying this face's
    ratio, exactly when the incremented counter equals [frame_check]. *)
Lemma process_subject_events ps r d w e :
  let d' := (process_subject ps (r, d, w) e).1.2 in
  if low d e && (flag d + 1 =? frame_check d)
  then exists ev, ear_value ev = e /\ drowsy_events d' = drowsy_events d ++ [ev]
  else drowsy_events d' = drowsy_events d.
Proof.
  split_subject; cbn [andb]; try lia; try reflexivity; try discriminate.
  all: eexists; split; [|reflexivity]; reflexivity.
Qed.

(** What one face does to the verdict of the frame. *)
Lemma process_subject_results ps r d w e :
  let r' := (process_subject ps (r, d, w) e).1.1 in
  drowsy r' = drowsy r || low d e /\
  ear r' = e /\
  faces_detected r' = faces_detected r /\
  alert_triggered r' =
    alert_triggered r || (low d e && (frame_check d <=? flag d + 1)).
Proof.
  split_subject; cbn [andb orb];
    rewrite ?orb_true_r, ?orb_false_r; repeat split; reflexivity.
Qed.

(** No float is below itself, NaN included. *)
Lemma ltb_irrefl (x : float) : PrimFloat.ltb x x = false.
Proof.
  rewrite ltb_spec. unfold SFltb, SFcompare.
  destruct (Prim2SF x) as [s|s| |s m e]; try (destruct s; reflexivity);
    try reflexivity.
  rewrite Z.compare_refl, Pos.compare_cont_refl. destruct s; reflexivity.
Qed.

(** [process_frame] on a frame with one face is the loop body run once on
    the detector whose [total_frames] has been incremented. *)
Lemma process_frame_single ps d w e :
  let '(r', d', w') := process_frame [e] ps d w in
  same_config d d' /\
  flag d' = (if low d e then flag d + 1 else 0) /\
  drowsy_frames d' = drowsy_frames d + (if low d e then 1 else 0) /\
  total_frames d' = total_frames d + 1 /\
  session_start d' = session_start d /\
  ear_history d' = ear_history d ++ [e] /\
  (if low d e && (flag d + 1 =? frame_check d)
   then exists ev,
     ear_value ev = e /\ drowsy_events d' = drowsy_events d ++ [ev]
   else drowsy_events d' = drowsy_events d) /\
  drowsy r' = low d e /\
  ear r' = e /\
  faces_detected r' = 1%nat /\
  alert_triggered r' = low d e && (frame_check d <=? flag d + 1).
Proof.
  unfold process_frame. cbn [fold_left length drowsy ear alert_triggered].
  set (d1 := mkDetector _ _ _ _ _ _ _ _ _ _ _).
  set (r0 := mkResults _ _ _ _).
  pose proof (process_subject_counters ps r0 d1 w e) as Hc.
  pose proof (process_subject_events ps r0 d1 w e) as He.
  pose proof (process_subject_results ps r0 d1 w e) as Hr.
  destruct (process_subject ps (r0, d1, w) e) as [[r' d'] w'].
  cbn [fst snd] in Hc, He, Hr.
  change (low d1 e) with (low d e) in *.
  cbn [d1 r0 flag frame_check drowsy_frames total_frames session_start
       ear_history drowsy_events drowsy faces_detected alert_triggered
       orb] in Hc, He, Hr.
  unfold same_config in *.
  cbn [d1 thresh frame_check model_path music_path log_file] in Hc.
  intuition.
Qed.

(** ** Invariants of a session *)

(** A property of the detector that the loop body preserves holds after the
    whole loop. *)
Lemma subjects_invariant (P : Detector -> Prop) ps :
  (forall r d w e, P d -> P (process_subject ps (r, d, w) e).1.2) ->
  forall subjects st,
    P st.1.2 -> P (fold_left (process_subject ps) subjects st).1.2.
Proof.
  intros Hsubj subjects.
  induction subjects as [|e subjects IH]; intros [[r d] w] HP; [exact HP|].
  cbn [fold_left]. apply IH. apply Hsubj. exact HP.
Qed.

(** [P] holds between calls and [Q] inside the loop of [process_frame]:
    when incrementing the frame counter takes [P] to [Q], the loop body
    preserves [Q], [Q] gives back [P], and a reset establishes [P], then [P]
    holds after any sequence of calls. *)
Lemma run_invariant2 (P Q : Detector -> Prop) :
  (forall d, P d ->
     Q (mkDetector (thresh d) (frame_check d) (model_path d) (music_path d)
          (log_file d) (flag d) (session_start d) (drowsy_events d)
          (total_frames d + 1) (drowsy_frames d) (ear_history d))) ->
  (forall ps r d w e, Q d -> Q (process_subject ps (r, d, w) e).1.2) ->
  (forall d, Q d -> P d) ->
  (forall d w, P d -> P (reset_session d w).1) ->
  forall calls st, P st.1 -> P (run calls st).1.
Proof.
  intros Hframe Hsubj HQP Hreset calls.
  induction calls as [|c calls IH]; intros [d w] HP; [exact HP|].
  cbn [run fold_left fst] in *. apply IH.
  destruct c as [subjects ps|]; cbn [step].
  - pose proof (subjects_invariant Q ps (Hsubj ps) subjects
                  (mkResults false 0%float (length subjects) false,
                   mkDetector (thresh d) (frame_check d) (model_path d)
                     (music_path d) (log_file d) (flag d) (session_start d)
                     (drowsy_events d) (total_frames d + 1) (drowsy_frames d)
                     (ear_history d), w) (Hframe d HP)) as Hfold.
    unfold process_frame. cbn [drowsy ear alert_triggered].
    destruct (fold_left _ _ _) as [[r1 d1] w1]. apply HQP. exact Hfold.
  - apply Hreset. exact HP.
Qed.

Lemma run_invariant (P : Detector -> Prop) :
  (forall ps r d w e, P d -> P (process_subject ps (r, d, w) e).1.2) ->
  (forall d, P d ->
     P (mkDetector (thresh d) (frame_check d) (model_path d) (music_path d)
          (log_file d) (flag d) (session_start d) (drowsy_events d)
          (total_frames d + 1) (drowsy_frames d) (ear_history d))) ->
  (forall d w, P d -> P (reset_session d w).1) ->
  forall calls st, P st.1 -> P (run calls st).1.
Proof.
  intros Hsubj Hframe Hreset.
  apply (run_invariant2 P P); auto.
Qed.

(** The configuration never changes during a session. *)
Lemma run_same_config calls d0 d w :
  same_config d0 d -> same_config d0 (run calls (d, w)).1.
Proof.
  intros Hd0.
  apply (run_invariant (same_config d0)); [| | |exact Hd0]; unfold same_config.
  - intros ps r d1 w1 e Hd.
    pose proof (process_subject_counters ps r d1 w1 e) as [Hc _].
    unfold same_config in Hc. cbn zeta in Hc. intuition congruence.
  - intros d1 Hd. exact Hd.
  - intros d1 w1 Hd. exact Hd.
Qed.

Lemma run_counters_ok calls st : counters_ok st.1 -> counters_ok (run calls st).1.
Proof.
  intros Hst.
  apply (run_invariant2 counters_ok
           (fun d => 1 <= total_frames d /\
                     0 <= drowsy_frames d <= Z.of_nat (length (ear_history d))));
    [| | | |exact Hst]; unfold counters_ok.
  - intros d (Ht & Hd & Hz). cbn. lia.
  - intros ps r d w e (Ht & Hd).
    pose proof (process_subject_counters ps r d w e) as Hc. cbn zeta in Hc.
    destruct Hc as (_ & _ & Hdf & Htf & _ & Hh).
    rewrite Hdf, Htf, Hh, length_app. cbn [length].
    destruct (low d e); lia.
  - intros d (Ht & Hd). repeat split; try lia.
  - intros d w _. cbn. repeat split; try lia.
Qed.

Lemma run_events_below calls st : events_below st.1 -> events_below (run calls st).1.
Proof.
  intros Hst.
  apply (run_invariant events_below); [| | |exact Hst]; unfold events_below.
  - intros ps r d w e HF.
    pose proof (process_subject_counters ps r d w e) as Hc.
    pose proof (process_subject_events ps r d w e) as He.
    cbn zeta in Hc, He. destruct Hc as ((Ht & _) & _). rewrite Ht.
    destruct (low d e) eqn:Hlow; cbn [andb] in He.
    + destruct (flag d + 1 =? frame_check d).
      * destruct He as (ev & Hev & ->). apply Forall_app. split; [exact HF|].
        constructor; [|constructor]. rewrite Hev. exact Hlow.
      * rewrite He. exact HF.
    + rewrite He. exact HF.
  - intros d HF. exact HF.
  - intros d w _. cbn. constructor.
Qed.

(** ** Claims about single frames *)

(** C5.  A reading is drowsy exactly when it is strictly below the threshold:
    in any frame, a face whose ratio is below [thresh] increments the counter
    and every other face resets it to 0; the verdict of a one-face frame is
    drowsy iff [ear < thresh]; and a frame whose ratio equals the threshold
    is not drowsy, counts no drowsy frame, raises no alert, logs no event and
    leaves the counter at 0. *)
Theorem strict_threshold ps r d w e :
  flag (process_subject ps (r, d, w) e).1.2 =
    (if PrimFloat.ltb e (thresh d) then flag d + 1 else 0) /\
  (let '(r', d', _) := process_frame [e] ps d w in
   (drowsy r' = true <-> PrimFloat.ltb e (thresh d) = true) /\
   flag d' = (if PrimFloat.ltb e (thresh d) then flag d + 1 else 0)) /\
  (let '(r', d', _) := process_frame [thresh d] ps d w in
   drowsy r' = false /\ alert_triggered r' = false /\ flag d' = 0 /\
   drowsy_frames d' = drowsy_frames d /\
   drowsy_events d' = drowsy_events d).
Proof.
  split; [|split].
  - pose proof (process_subject_counters ps r d w e) as Hc. cbn zeta in Hc.
    destruct Hc as (_ & Hf & _). exact Hf.
  - pose proof (process_frame_single ps d w e) as Hs.
    destruct (process_frame [e] ps d w) as [[r' d'] w'].
    destruct Hs as (_ & Hf & _ & _ & _ & _ & _ & Hdr & _).
    split; [rewrite Hdr; reflexivity | exact Hf].
  - pose proof (process_frame_single ps d w (thresh d)) as Hs.
    destruct (process_frame [thresh d] ps d w) as [[r' d'] w'].
    unfold low in Hs. rewrite ltb_irrefl in Hs. cbn [andb] in Hs.
    destruct Hs as (_ & Hf & Hdf & _ & _ & _ & Hev & Hdr & _ & _ & Hal).
    repeat split; try assumption. lia.
Qed.

(** C9.  A frame without faces increments [total_frames] and changes nothing
    else: counter, drowsy frames, history, events and the world stay as they
    were, and the verdict reports no face, ratio 0, not drowsy, no alert. *)
Theorem no_face_frame ps d w :
  let '(r', d', w') := process_frame [] ps d w in
  total_frames d' = total_frames d + 1 /\
  flag d' = flag d /\
  drowsy_frames d' = drowsy_frames d /\
  ear_history d' = ear_history d /\
  drowsy_events d' = drowsy_events d /\
  session_start d' = session_start d /\
  same_config d d' /\
  w' = w /\
  faces_detected r' = 0%nat /\
  ear r' = 0%float /\
  drowsy r' = false /\
  alert_triggered r' = false.
Proof.
  cbn. unfold same_config. cbn. repeat split; reflexivity.
Qed.

(** ** Claims about whole sessions *)

(** C10.  After a reset followed by any sequence of [process_frame] and
    [reset_session] calls, every logged event has an [ear_value] strictly
    below the detector's threshold. *)
Theorem events_below_threshold d0 w0 calls :
  let d := (run calls (reset_session d0 w0)).1 in
  thresh d = thresh d0 /\
  Forall (fun ev => PrimFloat.ltb (ear_value ev) (thresh d0) = true)
    (drowsy_events d).
Proof.
  cbn zeta.
  assert (Hcfg : same_config d0 (run calls (reset_session d0 w0)).1).
  { pose proof (run_same_config calls d0 (reset_session d0 w0).1
                  (reset_session d0 w0).2) as Hc.
    rewrite <- surjective_pairing in Hc. apply Hc.
    unfold same_config. cbn. repeat split; reflexivity. }
  destruct Hcfg as (Ht & _). split; [exact Ht|].
  pose proof (run_events_below calls (reset_session d0 w0)) as Hev.
  unfold events_below in Hev. rewrite Ht in Hev. apply Hev.
  cbn. constructor.
Qed.

(** C6.  On a session in which no frame has been processed since the last
    reset, the history is empty and [get_session_stats] returns percentage
    0.0 and the integer 0 for both the current and the average ratio; none
    of them is NaN, and the function has no failing path. *)
Theorem stats_of_empty_session d0 w0 calls w :
  let d := (run calls (reset_session d0 w0)).1 in
  total_frames d = 0 ->
  let st := (get_session_stats d w).1 in
  ear_history d = [] /\
  st_total_frames st = 0 /\
  st_drowsy_frames st = 0 /\
  st_drowsiness_percentage st = 0%float /\
  PrimFloat.is_nan (st_drowsiness_percentage st) = false /\
  st_avg_ear st = PyInt 0 /\
  st_current_ear st = PyInt 0 /\
  is_zero (st_avg_ear st) = true /\
  is_zero (st_current_ear st) = true /\
  number_is_nan (st_avg_ear st) = false /\
  number_is_nan (st_current_ear st) = false.
Proof.
  cbn zeta. intros Htf.
  pose proof (run_counters_ok calls (reset_session d0 w0)) as Hok.
  destruct Hok as (_ & Hdf & Hh).
  { cbn. unfold counters_ok. cbn. repeat split; try lia. }
  specialize (Hh Htf). rewrite Hh in Hdf. cbn [length] in Hdf.
  assert (Hdf0 : drowsy_frames (run calls (reset_session d0 w0)).1 = 0) by lia.
  unfold get_session_stats, now. cbn [fst st_total_frames st_drowsy_frames
    st_drowsiness_percentage st_avg_ear st_current_ear].
  unfold drowsiness_percentage_of. rewrite Hh, Htf, Hdf0.
  repeat split; reflexivity.
Qed.

(** ** The session log store *)

Lemma process_subject_fs ps st e :
  fs (process_subject ps st e).2 = fs st.2.
Proof.
  destruct st as [[r d] w]. split_subject; reflexivity.
Qed.

Lemma subjects_fs ps subjects st :
  fs (fold_left (process_subject ps) subjects st).2 = fs st.2.
Proof.
  revert st. induction subjects as [|e subjects IH]; intros st; [reflexivity|].
  cbn [fold_left]. rewrite IH. apply process_subject_fs.
Qed.

(** Processing frames and resetting the session never touch a file. *)
Lemma run_fs calls st : fs (run calls st).2 = fs st.2.
Proof.
  revert st. induction calls as [|c calls IH]; intros [d w]; [reflexivity|].
  change (run (c :: calls) (d, w)) with (run calls (step (d, w) c)).
  rewrite IH. destruct c as [subjects ps|]; cbn [step].
  - pose proof (subjects_fs ps subjects
                  (mkResults false 0%float (length subjects) false,
                   mkDetector (thresh d) (frame_check d) (model_path d)
                     (music_path d) (log_file d) (flag d) (session_start d)
                     (drowsy_events d) (total_frames d + 1) (drowsy_frames d)
                     (ear_history d), w)) as Hfs.
    unfold process_frame. cbn [drowsy ear alert_triggered].
    destruct (fold_left _ _ _) as [[r1 d1] w1]. exact Hfs.
  - reflexivity.
Qed.

(** C7.  On a store that is missing or does not parse, loading gives the
    empty list; after one [save_session_log] loading gives exactly the saved
    summary; and after any further frames and resets of the same detector and
    a second save, loading gives the two summaries in the order saved. *)
Theorem log_append_then_load d w calls :
  fs w !! log_file d = None \/ fs w !! log_file d = Some Unparseable ->
  load_historical_logs d w = JList [] /\
  let '(r1, w1) := save_session_log d w in
  r1 = Ok tt /\
  load_historical_logs d w1 = JList [session_data d (clock w (reads w))] /\
  let '(d2, w2) := run calls (d, w1) in
  let '(r2, w3) := save_session_log d2 w2 in
  r2 = Ok tt /\
  load_historical_logs d2 w3 =
    JList [session_data d (clock w (reads w));
           session_data d2 (clock w2 (reads w2))].
Proof.
  intros Hfresh.
  assert (Hload : read_logs (log_file d) w = JList []).
  { unfold read_logs. destruct Hfresh as [-> | ->]; reflexivity. }
  split; [exact Hload|].
  unfold save_session_log, now.
  assert (Hload' : read_logs (log_file d)
                     (mkWorld (fs w) (clock w) (S (reads w)) (plays w))
                   = JList []) by exact Hload.
  rewrite Hload'. cbn [app].
  split; [reflexivity|]. split.
  { unfold load_historical_logs, read_logs, write_file. cbn [fs].
    rewrite lookup_insert_eq. reflexivity. }
  pose proof (run_fs calls
    (d, write_file (log_file d)
          (Document (JList [session_data d (clock w (reads w))]))
          (mkWorld (fs w) (clock w) (S (reads w)) (plays w)))) as Hfs.
  pose proof (run_same_config calls d d
    (write_file (log_file d)
       (Document (JList [session_data d (clock w (reads w))]))
       (mkWorld (fs w) (clock w) (S (reads w)) (plays w)))) as Hcfg.
  destruct (run calls _) as [d2 w2]. cbn [fst snd] in Hfs, Hcfg.
  destruct Hcfg as (_ & _ & _ & _ & Hlog);
    [unfold same_config; repeat split; reflexivity|].
  assert (Hload2 : read_logs (log_file d2)
                     (mkWorld (fs w2) (clock w2) (S (reads w2)) (plays w2))
                   = JList [session_data d (clock w (reads w))]).
  { unfold read_logs. cbn [fs]. rewrite Hfs, Hlog. unfold write_file. cbn [fs].
    rewrite lookup_insert_eq. reflexivity. }
  rewrite Hload2. cbn [app]. split; [reflexivity|].
  unfold load_historical_logs, read_logs, write_file. cbn [fs].
  rewrite lookup_insert_eq. reflexivity.
Qed.

(** ** Construction *)

(** How construction ends, whatever the configuration values. *)
Lemma init_outcome libs t fc mp mup lf w :
  if init_succeeds libs mp mup w
  then init libs t fc mp mup lf w
       = (Ok (mkDetector t fc mp mup lf 0 (clock w (reads w)) [] 0 0 []),
          mkWorld (fs w) (clock w) (S (reads w)) (plays w))
  else exists e,
    (forall t' fc', init libs t' fc' mp mup lf w = (Raise e, w)) /\
    (mixer_init libs = None ->
     (path_exists mup w = true -> music_load libs mup = None) ->
     path_exists mp w = false -> e = FileNotFoundError mp).
Proof.
  unfold init_succeeds, init, reset_session, now.
  destruct (mixer_init libs) as [e|]; cbn [andb].
  { rewrite bool_decide_eq_false_2 by discriminate. cbn [andb].
    eexists. split; [reflexivity|]. discriminate. }
  rewrite bool_decide_eq_true_2 by reflexivity. cbn [andb].
  destruct (path_exists mup w); cbn [negb orb].
  - destruct (music_load libs mup) as [e|].
    { rewrite bool_decide_eq_false_2 by discriminate. cbn [andb].
      eexists. split; [reflexivity|]. intros _ Hload.
      specialize (Hload eq_refl). discriminate. }
    rewrite bool_decide_eq_true_2 by reflexivity. cbn [andb].
    destruct (path_exists mp w); cbn [andb].
    + destruct (shape_predictor libs mp) as [e|].
      * rewrite bool_decide_eq_false_2 by discriminate.
        eexists. split; [reflexivity|]. discriminate.
      * rewrite bool_decide_eq_true_2 by reflexivity. reflexivity.
    + eexists. split; [reflexivity|]. reflexivity.
  - destruct (path_exists mp w); cbn [andb].
    + destruct (shape_predictor libs mp) as [e|].
      * rewrite bool_decide_eq_false_2 by discriminate.
        eexists. split; [reflexivity|]. discriminate.
      * rewrite bool_decide_eq_true_2 by reflexivity. reflexivity.
    + eexists. split; [reflexivity|]. reflexivity.
Qed.

(** C8, as the code has it.  Construction looks at neither the threshold
    nor the frame count: whether it returns a detector or raises, and what
    it raises, is the same for every pair of values, and a detector it
    returns holds the pair as given, in a freshly reset session.  What
    makes it raise is the mixer, the music file or the model file: with the
    mixer calls returning, a missing model file gives
    [FileNotFoundError]. *)
Theorem init_ignores_configuration libs t fc mp mup lf w :
  match init libs t fc mp mup lf w with
  | (Ok d, w') =>
      thresh d = t /\ frame_check d = fc /\ flag d = 0 /\
      total_frames d = 0 /\ drowsy_frames d = 0 /\
      drowsy_events d = [] /\ ear_history d = [] /\
      path_exists mp w = true /\
      forall t' fc',
        exists d',
          init libs t' fc' mp mup lf w = (Ok d', w') /\
          thresh d' = t' /\ frame_check d' = fc'
  | (Raise e, w') =>
      w' = w /\
      (forall t' fc', init libs t' fc' mp mup lf w = (Raise e, w)) /\
      (mixer_init libs = None ->
       (path_exists mup w = true -> music_load libs mup = None) ->
       path_exists mp w = false -> e = FileNotFoundError mp)
  end.
Proof.
  pose proof (init_outcome libs t fc mp mup lf w) as Ho.
  destruct (init_succeeds libs mp mup w) eqn:Hs.
  - rewrite Ho. cbn [thresh frame_check flag total_frames drowsy_frames
                       drowsy_events ear_history].
    repeat (split; [reflexivity|]). split.
    { unfold init_succeeds in Hs.
      destruct (path_exists mp w); [reflexivity|].
      rewrite andb_false_r in Hs. discriminate. }
    intros t' fc'.
    pose proof (init_outcome libs t' fc' mp mup lf w) as Ho'.
    rewrite Hs in Ho'. rewrite Ho'. eexists. repeat split; reflexivity.
  - destruct Ho as (e & Hall & Hmissing). rewrite (Hall t fc).
    split; [reflexivity|]. split; assumption.
Qed.

(** ** Runs of low readings *)


Lemma run_app calls1 calls2 st :
  run (calls1 ++ calls2) st = run calls2 (run calls1 st).
Proof. apply fold_left_app. Qed.

(** One frame with one face, as a step of the session. *)
Lemma step_single ps d w e :
  let '(d', w') := step (d, w) (single ps e) in
  same_config d d' /\
  flag d' = (if low d e then flag d + 1 else 0) /\
  drowsy_frames d' = drowsy_frames d + (if low d e then 1 else 0) /\
  total_frames d' = total_frames d + 1 /\
  ear_history d' = ear_history d ++ [e] /\
  (if low d e && (flag d + 1 =? frame_check d)
   then exists ev,
     ear_value ev = e /\ drowsy_events d' = drowsy_events d ++ [ev]
   else drowsy_events d' = drowsy_events d).
Proof.
  unfold single. cbn [step].
  pose proof (process_frame_single ps d w e) as Hs.
  destruct (process_frame [e] ps d w) as [[r' d'] w'].
  intuition.
Qed.


(** ** Several faces in one frame *)




(** ** One event per alert run *)

Ltac case_bools :=
  repeat match goal with
  | |- context [?a <? ?b] => destruct (Z.ltb_spec a b)
  | |- context [?a <=? ?b] => destruct (Z.leb_spec a b)
  | |- context [?a =? ?b] => destruct (Z.eqb_spec a b)
  | H : context [?a <? ?b] |- _ => destruct (Z.ltb_spec a b)
  | H : context [?a <=? ?b] |- _ => destruct (Z.leb_spec a b)
  | H : context [?a =? ?b] |- _ => destruct (Z.eqb_spec a b)
  end; cbn [andb orb negb] in *.

(** A run of low readings, from any counter value: the counter grows by the
    length of the run, and one event is logged if the counter passes through
    [frame_check] during the run, none otherwise; the event carries the ratio
    of the frame at which the counter equals [frame_check]. *)
Lemma lows_run ps lows d w :
  Forall (fun e => low d e = true) lows ->
  let '(d', _) := run (map (single ps) lows) (d, w) in
  same_config d d' /\
  flag d' = flag d + Z.of_nat (length lows) /\
  (if (flag d <? frame_check d)
      && (frame_check d <=? flag d + Z.of_nat (length lows))
   then exists ev,
     lows !! Z.to_nat (frame_check d - flag d - 1) = Some (ear_value ev) /\
     drowsy_events d' = drowsy_events d ++ [ev]
   else drowsy_events d' = drowsy_events d).
Proof.
  revert d w. induction lows as [|e lows IH]; intros d w Hlows.
  - cbn. unfold same_config. repeat split; try reflexivity; try lia.
    case_bools; try lia; reflexivity.
  - apply Forall_cons in Hlows as [He Hlows].
    cbn [map]. change (run (single ps e :: map (single ps) lows) (d, w))
      with (run (map (single ps) lows) (step (d, w) (single ps e))).
    pose proof (step_single ps d w e) as Hs.
    destruct (step (d, w) (single ps e)) as [d1 w1].
    rewrite He in Hs. cbn [andb] in Hs.
    destruct Hs as (Hcfg & Hf & _ & _ & _ & Hev).
    assert (Hlows1 : Forall (fun e => low d1 e = true) lows).
    { unfold low in *. destruct Hcfg as (-> & _). exact Hlows. }
    specialize (IH d1 w1 Hlows1).
    destruct (run (map (single ps) lows) (d1, w1)) as [d' w'].
    destruct IH as (Hcfg' & Hf' & Hev').
    assert (Hfc : frame_check d1 = frame_check d) by (destruct Hcfg; tauto).
    rewrite Hfc, Hf in Hev'. rewrite Hf in Hf'. cbn [length].
    split; [unfold same_config in *; intuition congruence|].
    split; [lia|].
    rewrite Nat2Z.inj_succ.
    destruct (Z.eqb_spec (flag d + 1) (frame_check d)) as [Heq|Hne].
    + destruct Hev as (ev & Hear & Hev).
      replace ((flag d + 1 <? frame_check d)
               && (frame_check d <=? flag d + 1 + Z.of_nat (length lows)))
        with false in Hev' by (case_bools; lia).
      replace ((flag d <? frame_check d)
               && (frame_check d <=? flag d + Z.succ (Z.of_nat (length lows))))
        with true by (case_bools; lia).
      exists ev. split.
      * replace (Z.to_nat (frame_check d - flag d - 1)) with 0%nat by lia.
        cbn. rewrite Hear. reflexivity.
      * rewrite Hev', Hev. reflexivity.
    + replace ((flag d <? frame_check d)
               && (frame_check d <=? flag d + Z.succ (Z.of_nat (length lows))))
        with ((flag d + 1 <? frame_check d)
              && (frame_check d <=? flag d + 1 + Z.of_nat (length lows)))
        by (case_bools; lia).
      destruct ((flag d + 1 <? frame_check d)
                && (frame_check d <=? flag d + 1 + Z.of_nat (length lows)))
        eqn:Hcross.
      * destruct Hev' as (ev & Hear & Hev').
        exists ev. split; [|rewrite Hev', Hev; reflexivity].
        replace (Z.to_nat (frame_check d - flag d - 1))
          with (S (Z.to_nat (frame_check d - (flag d + 1) - 1)))
          by (revert Hcross; case_bools; intros; try discriminate; lia).
        exact Hear.
      * rewrite Hev', Hev. reflexivity.
Qed.

(** Readings at or above the threshold log nothing, and the first of them
    sets the counter to 0. *)
Lemma highs_run ps highs d w :
  Forall (fun e => low d e = false) highs ->
  let '(d', _) := run (map (single ps) highs) (d, w) in
  same_config d d' /\
  flag d' = (match highs with [] => flag d | _ :: _ => 0 end) /\
  drowsy_events d' = drowsy_events d.
Proof.
  revert d w. induction highs as [|e highs IH]; intros d w Hhighs.
  - cbn. unfold same_config. repeat split; reflexivity.
  - apply Forall_cons in Hhighs as [He Hhighs].
    cbn [map]. change (run (single ps e :: map (single ps) highs) (d, w))
      with (run (map (single ps) highs) (step (d, w) (single ps e))).
    pose proof (step_single ps d w e) as Hs.
    destruct (step (d, w) (single ps e)) as [d1 w1].
    rewrite He in Hs. cbn [andb] in Hs.
    destruct Hs as (Hcfg & Hf & _ & _ & _ & Hev).
    assert (Hhighs1 : Forall (fun e => low d1 e = false) highs).
    { unfold low in *. destruct Hcfg as (-> & _). exact Hhighs. }
    specialize (IH d1 w1 Hhighs1).
    destruct (run (map (single ps) highs) (d1, w1)) as [d' w'].
    destruct IH as (Hcfg' & Hf' & Hev').
    split; [unfold same_config in *; intuition congruence|].
    split; [destruct highs; congruence | congruence].
Qed.

(** Counting events over a whole session of one-face frames: the events
    logged, plus the one already logged for the run in progress if it has
    reached [frame_check], are the runs that reach [frame_check]. *)
Lemma events_count ps es cur d w :
  1 <= frame_check d ->
  flag d = Z.of_nat cur ->
  let '(d', _) := run (map (single ps) es) (d, w) in
  (length (drowsy_events d')
   + (if (frame_check d <=? Z.of_nat cur)%Z then 1 else 0))%nat
  = (length (drowsy_events d)
     + length (List.filter (fun n => (frame_check d <=? Z.of_nat n)%Z)
                 (low_runs (thresh d) cur es)))%nat.
Proof.
  intros Hfc. revert cur d w Hfc.
  induction es as [|e es IH]; intros cur d w Hfc Hflag.
  - cbn. destruct (frame_check d <=? Z.of_nat cur); reflexivity.
  - cbn [map low_runs].
    change (run (single ps e :: map (single ps) es) (d, w))
      with (run (map (single ps) es) (step (d, w) (single ps e))).
    pose proof (step_single ps d w e) as Hs.
    destruct (step (d, w) (single ps e)) as [d1 w1].
    destruct Hs as (Hcfg & Hf & _ & _ & _ & Hev).
    destruct Hcfg as (Ht & Hfc1 & _).
    unfold low in Hf, Hev.
    destruct (PrimFloat.ltb e (thresh d)) eqn:Hlow; cbn [andb] in Hev.
    + specialize (IH (S cur) d1 w1).
      rewrite Hfc1, Ht in IH.
      destruct (run (map (single ps) es) (d1, w1)) as [d' w'].
      specialize (IH Hfc ltac:(lia)).
      set (L := length (List.filter _ (low_runs (thresh d) (S cur) es))) in *.
      clearbody L. rewrite Nat2Z.inj_succ in IH. rewrite Hflag in Hev.
      destruct (Z.eqb_spec (Z.of_nat cur + 1) (frame_check d)) as [Heq|Hne].
      * destruct Hev as (ev & _ & Hev). rewrite Hev, length_app in IH.
        cbn [length] in IH. revert IH. case_bools; lia.
      * rewrite Hev in IH. revert IH. case_bools; lia.
    + specialize (IH 0%nat d1 w1).
      rewrite Hfc1, Ht in IH.
      destruct (run (map (single ps) es) (d1, w1)) as [d' w'].
      specialize (IH Hfc Hf). rewrite Hev in IH.
      cbn [List.filter].
      replace (frame_check d <=? Z.of_nat 0) with false in IH
        by (case_bools; lia).
      destruct (frame_check d <=? Z.of_nat cur); cbn [length]; lia.
Qed.

(** C3.  For a detector whose [frame_check] is positive and every session of
    one-face frames:
    - a frame logs an event exactly when its ratio is below the threshold
      and the incremented counter equals [frame_check]; the alert is raised
      exactly when the ratio is below the threshold and the incremented
      counter has reached [frame_check];
    - a run of [n] low frames started with the counter at 0 logs one event
      if [frame_check <= n] and none otherwise, and that event carries the
      ratio of the run's [frame_check]-th frame; every further low frame of
      a run that has reached [frame_check] raises the alert and logs
      nothing;
    - from a reset, the number of events is the number of maximal runs of
      low frames that reach [frame_check];
    - two runs that reach [frame_check], separated by at least one frame
      that is not low, log exactly two events. *)
Theorem one_event_per_alert_run ps d0 w0 :
  1 <= frame_check d0 ->
  (forall d w e,
     let '(r', d', _) := process_frame [e] ps d w in
     (if PrimFloat.ltb e (thresh d) && (flag d + 1 =? frame_check d)
      then exists ev,
        ear_value ev = e /\ drowsy_events d' = drowsy_events d ++ [ev]
      else drowsy_events d' = drowsy_events d) /\
     alert_triggered r' =
       PrimFloat.ltb e (thresh d) && (frame_check d <=? flag d + 1)) /\
  (forall d w lows,
     frame_check d = frame_check d0 ->
     flag d = 0 ->
     Forall (fun e => PrimFloat.ltb e (thresh d) = true) lows ->
     let '(d', w') := run (map (single ps) lows) (d, w) in
     flag d' = Z.of_nat (length lows) /\
     (if frame_check d0 <=? Z.of_nat (length lows)
      then exists ev,
        lows !! Z.to_nat (frame_check d0 - 1) = Some (ear_value ev) /\
        drowsy_events d' = drowsy_events d ++ [ev]
      else drowsy_events d' = drowsy_events d) /\
     (forall e,
        PrimFloat.ltb e (thresh d) = true ->
        frame_check d0 <= Z.of_nat (length lows) ->
        let '(r'', d'', _) := process_frame [e] ps d' w' in
        alert_triggered r'' = true /\
        drowsy_events d'' = drowsy_events d')) /\
  (forall es,
     length (drowsy_events
               (run (map (single ps) es) (reset_session d0 w0)).1)
     = alert_runs (thresh d0) (frame_check d0) es) /\
  (forall lows1 highs lows2,
     Forall (fun e => PrimFloat.ltb e (thresh d0) = true) lows1 ->
     Forall (fun e => PrimFloat.ltb e (thresh d0) = false) highs ->
     Forall (fun e => PrimFloat.ltb e (thresh d0) = true) lows2 ->
     frame_check d0 <= Z.of_nat (length lows1) ->
     (1 <= length highs)%nat ->
     frame_check d0 <= Z.of_nat (length lows2) ->
     length (drowsy_events
               (run (map (single ps) (lows1 ++ highs ++ lows2))
                  (reset_session d0 w0)).1) = 2%nat).
Proof.
  intros Hfc. split; [|split; [|split]].
  - intros d w e.
    pose proof (process_frame_single ps d w e) as Hs.
    destruct (process_frame [e] ps d w) as [[r' d'] w'].
    unfold low in Hs. intuition.
  - intros d w lows Hfcd Hflag Hlows.
    pose proof (lows_run ps lows d w Hlows) as Hr.
    destruct (run (map (single ps) lows) (d, w)) as [d' w'].
    destruct Hr as (Hcfg & Hf & Hev).
    rewrite Hflag, Hfcd in *. split; [lia|]. split.
    + replace ((0 <? frame_check d0)
               && (frame_check d0 <=? 0 + Z.of_nat (length lows)))
        with (frame_check d0 <=? Z.of_nat (length lows)) in Hev
        by (case_bools; lia).
      replace (frame_check d0 - 0 - 1) with (frame_check d0 - 1) in Hev by lia.
      exact Hev.
    + intros e He Hlen.
      pose proof (process_frame_single ps d' w' e) as Hs.
      destruct (process_frame [e] ps d' w') as [[r'' d''] w''].
      destruct Hcfg as (Ht' & Hfc' & _).
      unfold low in Hs. rewrite Ht', He, Hfc', Hfcd, Hf in Hs.
      cbn [andb] in Hs.
      destruct Hs as (_ & _ & _ & _ & _ & _ & Hev' & _ & _ & _ & Hal).
      replace (0 + Z.of_nat (length lows) + 1 =? frame_check d0) with false
        in Hev' by (case_bools; lia).
      replace (frame_check d0 <=? 0 + Z.of_nat (length lows) + 1) with true
        in Hal by (case_bools; lia).
      split; assumption.
  - intros es. unfold alert_runs.
    pose proof (events_count ps es 0 (reset_session d0 w0).1
                  (reset_session d0 w0).2 Hfc eq_refl) as Hc.
    rewrite <- surjective_pairing in Hc.
    destruct (run (map (single ps) es) (reset_session d0 w0)) as [d' w'].
    cbn [fst reset_session now frame_check thresh drowsy_events length] in *.
    replace (frame_check d0 <=? Z.of_nat 0) with false in Hc
      by (case_bools; lia).
    lia.
  - intros lows1 highs lows2 Hl1 Hh Hl2 Hn1 Hnh Hn2.
    rewrite !map_app, !run_app.
    destruct (reset_session d0 w0) as [d w] eqn:Hreset.
    assert (Hd : thresh d = thresh d0 /\ frame_check d = frame_check d0 /\
                 flag d = 0 /\ drowsy_events d = []).
    { unfold reset_session, now in Hreset. injection Hreset as <- _.
      repeat split; reflexivity. }
    destruct Hd as (Ht & Hfcd & Hflag & Hev0).
    pose proof (lows_run ps lows1 d w) as H1.
    destruct (run (map (single ps) lows1) (d, w)) as [d1 w1].
    destruct H1 as (Hcfg1 & Hf1 & Hev1).
    { unfold low. rewrite Ht. exact Hl1. }
    pose proof (highs_run ps highs d1 w1) as H2.
    destruct (run (map (single ps) highs) (d1, w1)) as [d2 w2].
    destruct H2 as (Hcfg2 & Hf2 & Hev2).
    { unfold low. destruct Hcfg1 as (-> & _). rewrite Ht. exact Hh. }
    pose proof (lows_run ps lows2 d2 w2) as H3.
    destruct (run (map (single ps) lows2) (d2, w2)) as [d3 w3].
    destruct H3 as (Hcfg3 & Hf3 & Hev3).
    { unfold low. destruct Hcfg2 as (-> & _). destruct Hcfg1 as (-> & _).
      rewrite Ht. exact Hl2. }
    assert (Hfc2 : frame_check d2 = frame_check d0).
    { destruct Hcfg1 as (_ & ? & _). destruct Hcfg2 as (_ & ? & _).
      congruence. }
    assert (Hflag2 : flag d2 = 0).
    { rewrite Hf2. destruct highs; [cbn in Hnh; lia | reflexivity]. }
    rewrite Hflag, Hfcd in Hev1. rewrite Hflag2, Hfc2 in Hev3.
    replace ((0 <? frame_check d0)
             && (frame_check d0 <=? 0 + Z.of_nat (length lows1)))
      with true in Hev1 by (case_bools; lia).
    replace ((0 <? frame_check d0)
             && (frame_check d0 <=? 0 + Z.of_nat (length lows2)))
      with true in Hev3 by (case_bools; lia).
    destruct Hev1 as (ev1 & _ & Hev1). destruct Hev3 as (ev3 & _ & Hev3).
    cbn [fst]. rewrite Hev3, Hev2, Hev1, Hev0. reflexivity.
Qed.


(** ** Frames with at most one face *)

(** While no frame shows more than one face, drowsy frames never outnumber
    processed frames. *)
Lemma one_face_drowsy_le_total calls st :
  Forall at_most_one_face calls ->
  0 <= drowsy_frames st.1 <= total_frames st.1 ->
  0 <= drowsy_frames (run calls st).1 <= total_frames (run calls st).1.
Proof.
  intros Hcalls. revert st.
  induction Hcalls as [|c calls Hc _ IH]; intros [d w] Hd; [exact Hd|].
  change (run (c :: calls) (d, w)) with (run calls (step (d, w) c)).
  apply IH. cbn [fst] in Hd.
  destruct c as [[|e [|e' subjects]] ps|].
  - cbn. lia.
  - pose proof (step_single ps d w e) as Hs. unfold single in Hs.
    destruct (step (d, w) (ProcessFrame [e] ps)) as [d1 w1].
    destruct Hs as (_ & _ & Hdf & Htf & _). cbn [fst].
    destruct (low d e); lia.
  - cbn in Hc. lia.
  - cbn. lia.
Qed.

(** The video tab never counts more drowsy frames than frames. *)
Lemma video_drowsy_le_total (frame_results : list FrameResult) :
  (video_drowsy_frames frame_results <= video_total_frames frame_results)%nat.
Proof.
  unfold video_drowsy_frames, video_total_frames. apply List.filter_length_le.
Qed.

(** ** The live session *)

(** C4, as the code has it.  [start_live_detection] itself always starts a
    thread and leaves the world alone, whatever the status record says, and
    a detector process is launched only by a thread so started.  The guard
    is in [live_detection_tab]: when the status record is a dictionary
    whose [active] entry is true, the tab starts no thread and launches no
    process (it can only stop the running ones), whatever the buttons
    report; when [active] is false or absent, it starts one thread exactly
    when the start button was pressed. *)
Theorem start_guarded_by_tab start_live stop_live sys :
  threads (start_live_detection sys) = threads sys ++ [Started] /\
  world (start_live_detection sys) = world sys /\
  procs (start_live_detection sys) = procs sys /\
  (forall i f,
     threads sys !! i <> Some Started -> run_live_detection_begin i f sys = sys) /\
  match check_live_session_status (world sys) with
  | JDict status =>
      exists sys',
        live_detection_tab start_live stop_live sys = Ok sys' /\
        if is_active status
        then threads sys' = threads sys /\
             (procs sys' = procs sys \/ procs sys' = [])
        else threads sys' =
               (if start_live then threads sys ++ [Started] else threads sys) /\
             world sys' = world sys /\ procs sys' = procs sys
  | _ => live_detection_tab start_live stop_live sys
         = Raise (AttributeError "get")
  end.
Proof.
  split; [reflexivity|]. split; [reflexivity|]. split; [reflexivity|]. split.
  { intros i f Hi. unfold run_live_detection_begin.
    destruct (threads sys !! i) as [[| |]|]; try reflexivity.
    contradiction Hi. reflexivity. }
  unfold live_detection_tab.
  destruct (check_live_session_status (world sys)) as [| | | |items|status];
    try reflexivity.
  destruct (is_active status).
  - destruct stop_live; eexists; (split; [reflexivity|]); cbn; auto.
    destruct (pkill_ends sys); auto.
  - destruct start_live; eexists; (split; [reflexivity|]); cbn; auto.
Qed.

(** * Further properties of the detector *)

(** What one face does to the world: files and clock are left alone, the
    alarm is played exactly when sound is requested, the music file exists
    and the alert is raised, and the clock is read twice exactly when an
    event is logged. *)
Lemma process_subject_world ps r d w e :
  let w' := (process_subject ps (r, d, w) e).2 in
  fs w' = fs w /\ clock w' = clock w /\
  plays w' =
    (if ps && path_exists (music_path d) w && low d e
        && (frame_check d <=? flag d + 1)
     then S (plays w) else plays w) /\
  reads w' =
    (if low d e && (flag d + 1 =? frame_check d)
     then S (S (reads w)) else reads w).
Proof.
  unfold_subject. unfold path_exists.
  destruct ps, (bool_decide (is_Some (fs w !! music_path d))),
    (PrimFloat.ltb e (thresh d)),
    (Z.leb_spec (frame_check d) (flag d + 1)),
    (Z.eqb_spec (flag d + 1) (frame_check d));
    cbn; repeat split; try reflexivity; lia.
Qed.

Lemma existsb_pointwise {A} (f g : A -> bool) (l : list A) :
  (forall x, f x = g x) -> existsb f l = existsb g l.
Proof.
  intros Hfg. induction l as [|x l IH]; [reflexivity|].
  cbn. rewrite Hfg, IH. reflexivity.
Qed.

Lemma last_cons_default {A} (x d : A) (l : list A) :
  List.last (x :: l) d = List.last l x.
Proof.
  revert x d. induction l as [|y l IH]; intros x d; [reflexivity|].
  change (List.last (x :: y :: l) d) with (List.last (y :: l) d).
  rewrite !IH. reflexivity.
Qed.

(** The loop of [process_frame] over the faces of one frame. *)
Lemma subjects_fold ps subjects r d w :
  let '(r', d', w') := fold_left (process_subject ps) subjects (r, d, w) in
  same_config d d' /\
  total_frames d' = total_frames d /\
  session_start d' = session_start d /\
  ear_history d' = ear_history d ++ subjects /\
  drowsy_frames d' =
    drowsy_frames d + Z.of_nat (length (List.filter (low d) subjects)) /\
  drowsy r' = drowsy r || existsb (low d) subjects /\
  faces_detected r' = faces_detected r /\
  ear r' = List.last subjects (ear r) /\
  (alert_triggered r' = true ->
   alert_triggered r = true \/ existsb (low d) subjects = true) /\
  fs w' = fs w /\ clock w' = clock w /\
  (ps = false \/ path_exists (music_path d) w = false -> plays w' = plays w).
Proof.
  revert r d w. induction subjects as [|e subjects IH]; intros r d w.
  - cbn. unfold same_config. rewrite app_nil_r, orb_false_r.
    repeat split; auto; lia.
  - cbn [fold_left].
    pose proof (process_subject_counters ps r d w e) as Hc.
    pose proof (process_subject_results ps r d w e) as Hr.
    pose proof (process_subject_world ps r d w e) as Hw.
    destruct (process_subject ps (r, d, w) e) as [[r1 d1] w1].
    cbn [fst snd] in Hc, Hr, Hw.
    destruct Hc as (Hcfg & _ & Hdf & Htf & Hss & Hh).
    destruct Hr as (Hdr & Hear & Hfd & Hal).
    destruct Hw as (Hfs & Hck & Hpl & _).
    specialize (IH r1 d1 w1).
    destruct (fold_left (process_subject ps) subjects (r1, d1, w1))
      as [[r' d'] w'].
    destruct IH as (Hcfg' & Htf' & Hss' & Hh' & Hdf' & Hdr' & Hfd' & Hear'
                    & Hal' & Hfs' & Hck' & Hpl').
    assert (Hlow : forall x, low d1 x = low d x).
    { intros x. unfold low. destruct Hcfg as (-> & _). reflexivity. }
    assert (Hmusic : path_exists (music_path d1) w1
                     = path_exists (music_path d) w).
    { unfold path_exists. rewrite Hfs.
      destruct Hcfg as (_ & _ & _ & -> & _). reflexivity. }
    rewrite (filter_ext _ _ Hlow) in Hdf'.
    rewrite (existsb_pointwise _ _ subjects Hlow) in Hdr', Hal'.
    split; [unfold same_config in *; intuition congruence|].
    split; [congruence|]. split; [congruence|].
    split; [rewrite Hh', Hh, <- app_assoc; reflexivity|].
    split.
    { rewrite Hdf', Hdf. cbn [List.filter].
      destruct (low d e); cbn [length]; lia. }
    split.
    { rewrite Hdr', Hdr. cbn [existsb]. rewrite orb_assoc. reflexivity. }
    split; [congruence|].
    split.
    { rewrite Hear', Hear, last_cons_default. reflexivity. }
    split.
    { intros Ha. cbn [existsb]. destruct (Hal' Ha) as [Ha1 | Hex].
      - rewrite Hal in Ha1. apply orb_true_iff in Ha1 as [Ha0 | Hnew].
        + left. exact Ha0.
        + right. apply andb_true_iff in Hnew as [-> _]. reflexivity.
      - right. rewrite Hex. apply orb_true_r. }
    split; [congruence|]. split; [congruence|].
    intros Hquiet. rewrite Hpl', Hpl; [|rewrite Hmusic; exact Hquiet].
    destruct Hquiet as [-> | ->]; [reflexivity|].
    rewrite andb_false_r. reflexivity.
Qed.

(** X1.  The verdict of a frame agrees with its readings: it is drowsy
    exactly when some face is below the threshold, it reports the number of
    faces and the ratio of the last face (0.0 without faces), and an alert is
    never raised on a frame that is not drowsy. *)
Theorem frame_verdict subjects ps d w :
  let r := (process_frame subjects ps d w).1.1 in
  drowsy r = existsb (fun e => PrimFloat.ltb e (thresh d)) subjects /\
  faces_detected r = length subjects /\
  ear r = List.last subjects 0%float /\
  (alert_triggered r = true -> drowsy r = true).
Proof.
  cbn zeta. unfold process_frame. cbn [drowsy ear alert_triggered].
  pose proof (subjects_fold ps subjects
                (mkResults false 0%float (length subjects) false)
                (with_total (total_frames d + 1) d) w) as Hf.
  unfold with_total in Hf.
  destruct (fold_left _ _ _) as [[r' d'] w'].
  destruct Hf as (_ & _ & _ & _ & _ & Hdr & Hfd & Hear & Hal & _).
  cbn [drowsy faces_detected ear alert_triggered orb fst] in *.
  change (existsb _ subjects)
    with (existsb (fun e => PrimFloat.ltb e (thresh d)) subjects) in Hdr, Hal.
  repeat split; try assumption.
  intros Ha. destruct (Hal Ha) as [Hf | Hex]; [discriminate|].
  rewrite Hdr. exact Hex.
Qed.

(** One call of [process_frame], as a step of the session. *)
Lemma step_frame subjects ps d w :
  let '(d', w') := step (d, w) (ProcessFrame subjects ps) in
  same_config d d' /\
  total_frames d' = total_frames d + 1 /\
  session_start d' = session_start d /\
  ear_history d' = ear_history d ++ subjects /\
  drowsy_frames d' =
    drowsy_frames d + Z.of_nat (length (List.filter (low d) subjects)) /\
  fs w' = fs w /\ clock w' = clock w /\
  (ps = false \/ path_exists (music_path d) w = false -> plays w' = plays w).
Proof.
  cbn [step]. unfold process_frame. cbn [drowsy ear alert_triggered].
  pose proof (subjects_fold ps subjects
                (mkResults false 0%float (length subjects) false)
                (with_total (total_frames d + 1) d) w) as Hf.
  unfold with_total in Hf.
  destruct (fold_left _ _ _) as [[r' d'] w'].
  destruct Hf as (Hcfg & Htf & Hss & Hh & Hdf & _ & _ & _ & _ & Hfs & Hck & Hpl).
  repeat split; try assumption; apply Hcfg.
Qed.

(** X2.  The counters say exactly what was processed since the last reset:
    [total_frames] is the number of frames, [ear_history] is the readings of
    all their faces in order, and [drowsy_frames] is the number of those
    readings that are below the threshold. *)
Theorem counters_since_reset calls d0 w0 :
  let d := (run calls (reset_session d0 w0)).1 in
  total_frames d = Z.of_nat (length (since_reset calls [])) /\
  ear_history d = concat (since_reset calls []) /\
  drowsy_frames d =
    Z.of_nat (length (List.filter (fun e => PrimFloat.ltb e (thresh d0))
                        (concat (since_reset calls [])))).
Proof.
  cbn zeta.
  assert (Hgen : forall calls acc d w,
    thresh d = thresh d0 ->
    total_frames d = Z.of_nat (length acc) ->
    ear_history d = concat acc ->
    drowsy_frames d =
      Z.of_nat (length (List.filter (fun e => PrimFloat.ltb e (thresh d0))
                          (concat acc))) ->
    let d' := (run calls (d, w)).1 in
    total_frames d' = Z.of_nat (length (since_reset calls acc)) /\
    ear_history d' = concat (since_reset calls acc) /\
    drowsy_frames d' =
      Z.of_nat (length (List.filter (fun e => PrimFloat.ltb e (thresh d0))
                          (concat (since_reset calls acc))))).
  { clear calls. intros calls.
    induction calls as [|c calls IH]; intros acc d w Ht Htf Hh Hdf.
    - cbn. auto.
    - change (run (c :: calls) (d, w)) with (run calls (step (d, w) c)).
      destruct c as [subjects ps|]; cbn [since_reset].
      + pose proof (step_frame subjects ps d w) as Hs.
        destruct (step (d, w) (ProcessFrame subjects ps)) as [d1 w1].
        destruct Hs as (Hcfg & Htf1 & _ & Hh1 & Hdf1 & _).
        apply IH.
        * destruct Hcfg as (-> & _). exact Ht.
        * rewrite Htf1, Htf, length_app. cbn [length]. lia.
        * rewrite Hh1, Hh, concat_app. cbn [concat].
          rewrite app_nil_r. reflexivity.
        * rewrite Hdf1, Hdf, concat_app. cbn [concat].
          rewrite app_nil_r, List.filter_app, length_app.
          unfold low. rewrite Ht. lia.
      + cbn [step]. apply IH; reflexivity || exact Ht. }
  destruct (reset_session d0 w0) as [d w] eqn:Hreset.
  unfold reset_session, now in Hreset. injection Hreset as <- _.
  apply Hgen; reflexivity.
Qed.

Lemma run_events_accounted calls st :
  1 <= frame_check st.1 ->
  events_accounted st.1 -> events_accounted (run calls st).1.
Proof.
  intros Hfc Hst.
  apply (run_invariant
           (fun d => frame_check d = frame_check st.1 /\ events_accounted d));
    [| | |split; [reflexivity | exact Hst]].
  - intros ps r d w e (Hfcd & Hflag & Hone & Hacc).
    pose proof (process_subject_counters ps r d w e) as Hc.
    pose proof (process_subject_events ps r d w e) as He.
    cbn zeta in Hc, He.
    destruct Hc as ((_ & Hfc' & _) & Hf & Hdf & _).
    split; [congruence|]. unfold events_accounted.
    rewrite Hfc', Hf, Hdf.
    destruct (low d e); cbn [andb] in He.
    + destruct (Z.eqb_spec (flag d + 1) (frame_check d)) as [Heq|Hne].
      * destruct He as (ev & _ & ->). rewrite length_app. cbn [length].
        split; [lia|]. split; [lia|]. revert Hacc. case_bools; nia.
      * rewrite He. split; [lia|]. split; [intros; apply Hone; lia|].
        revert Hacc. case_bools; lia.
    + rewrite He. split; [lia|]. split; [lia|]. revert Hacc. case_bools; lia.
  - intros d Hd. exact Hd.
  - intros d w (Hfcd & _). split; [exact Hfcd|].
    unfold events_accounted. cbn. split; [lia|]. split; [lia|].
    case_bools; lia.
Qed.

(** X3.  With a positive [frame_check], every logged event stands for at
    least [frame_check] drowsy readings of its own: after any sequence of
    calls, [frame_check * len(drowsy_events) <= drowsy_frames], and the
    counter of the run in progress is between 0 and [drowsy_frames]. *)
Theorem events_cost_frame_check calls d0 w0 :
  1 <= frame_check d0 ->
  let d := (run calls (reset_session d0 w0)).1 in
  frame_check d0 * Z.of_nat (length (drowsy_events d)) <= drowsy_frames d /\
  0 <= flag d <= drowsy_frames d.
Proof.
  intros Hfc. cbn zeta.
  pose proof (run_events_accounted calls (reset_session d0 w0)) as Hacc.
  pose proof (run_same_config calls d0 (reset_session d0 w0).1
                (reset_session d0 w0).2) as Hcfg.
  rewrite <- surjective_pairing in Hcfg.
  destruct Hcfg as (_ & Hfcd & _);
    [unfold same_config; cbn; repeat split; reflexivity|].
  destruct Hacc as (Hflag & Hone & Hsum).
  { exact Hfc. }
  { unfold events_accounted. cbn. split; [lia|]. split; [lia|].
    case_bools; lia. }
  rewrite Hfcd in Hsum, Hone. revert Hsum. case_bools; nia.
Qed.

(** X4.  The alarm stays silent when nobody asks for it or there is nothing
    to play: over a session whose frames are all processed with
    [play_sound=False], or whose music file does not exist, no call of
    [mixer.music.play()] is made. *)
Theorem silent_sessions_never_play calls d w :
  path_exists (music_path d) w = false \/ Forall silent calls ->
  plays (run calls (d, w)).2 = plays w.
Proof.
  revert d w. induction calls as [|c calls IH]; intros d w Hq; [reflexivity|].
  change (run (c :: calls) (d, w)) with (run calls (step (d, w) c)).
  destruct c as [subjects ps|].
  - pose proof (step_frame subjects ps d w) as Hs.
    destruct (step (d, w) (ProcessFrame subjects ps)) as [d1 w1].
    destruct Hs as (Hcfg & _ & _ & _ & _ & Hfs & _ & Hpl).
    rewrite IH.
    + apply Hpl. destruct Hq as [Hm | Hall]; [right; exact Hm|].
      left. apply Forall_cons in Hall as [Hc _]. exact Hc.
    + destruct Hq as [Hm | Hall].
      * left. unfold path_exists in *. rewrite Hfs.
        destruct Hcfg as (_ & _ & _ & -> & _). exact Hm.
      * right. apply Forall_cons in Hall as [_ Hall]. exact Hall.
  - cbn [step]. unfold reset_session, now. rewrite IH; [reflexivity|].
    destruct Hq as [Hm | Hall].
    + left. exact Hm.
    + right. apply Forall_cons in Hall as [_ Hall]. exact Hall.
Qed.

(** One frame with one face, seen from the world. *)
Lemma step_single_world ps d w e :
  let w' := (step (d, w) (single ps e)).2 in
  fs w' = fs w /\ clock w' = clock w /\
  plays w' =
    (if ps && path_exists (music_path d) w && low d e
        && (frame_check d <=? flag d + 1)
     then S (plays w) else plays w).
Proof.
  unfold single. cbn [step]. unfold process_frame.
  cbn [fold_left length drowsy ear alert_triggered].
  pose proof (process_subject_world ps (mkResults false 0%float 1 false)
                (with_total (total_frames d + 1) d) w e) as Hw.
  unfold with_total in Hw.
  destruct (process_subject ps _ e) as [[r' d'] w'].
  cbn [fst snd] in *. destruct Hw as (Hfs & Hck & Hpl & _).
  repeat split; assumption.
Qed.

(** The alarm over a run of low readings, from any counter value: it is
    started once for every frame at which the incremented counter has
    reached [frame_check]. *)
Lemma lows_run_plays lows d w :
  path_exists (music_path d) w = true ->
  Forall (fun e => low d e = true) lows ->
  Z.of_nat (plays (run (map (single true) lows) (d, w)).2)
  = Z.of_nat (plays w)
    + Z.max 0 (flag d + Z.of_nat (length lows)
               - Z.max (flag d) (frame_check d - 1)).
Proof.
  revert d w. induction lows as [|e lows IH]; intros d w Hmusic Hlows.
  - cbn. lia.
  - apply Forall_cons in Hlows as [He Hlows].
    cbn [map]. change (run (single true e :: map (single true) lows) (d, w))
      with (run (map (single true) lows) (step (d, w) (single true e))).
    pose proof (step_single true d w e) as Hs.
    pose proof (step_single_world true d w e) as Hw.
    destruct (step (d, w) (single true e)) as [d1 w1].
    cbn [snd] in Hw. rewrite He in Hs. rewrite He, Hmusic in Hw.
    cbn [andb] in Hs, Hw.
    destruct Hs as (Hcfg & Hf & _).
    destruct Hw as (Hfs & _ & Hpl).
    destruct Hcfg as (Ht & Hfc & _ & Hmp & _).
    rewrite IH.
    + rewrite Hpl, Hf, Hfc. cbn [length]. case_bools; lia.
    + unfold path_exists in *. rewrite Hfs, Hmp. exact Hmusic.
    + unfold low in *. rewrite Ht. exact Hlows.
Qed.

(** X5.  With sound enabled and the music file present, a run of [n] low
    one-face frames that starts with the counter at 0 starts the alarm on
    every frame from the [frame_check]-th on: [n - (frame_check - 1)] times
    when the run reaches [frame_check], never otherwise. *)
Theorem alarm_restarts_every_alert_frame lows d w :
  1 <= frame_check d ->
  flag d = 0 ->
  path_exists (music_path d) w = true ->
  Forall (fun e => PrimFloat.ltb e (thresh d) = true) lows ->
  plays (run (map (single true) lows) (d, w)).2
  = (plays w + (length lows - (Z.to_nat (frame_check d) - 1)))%nat.
Proof.
  intros Hfc Hflag Hmusic Hlows.
  pose proof (lows_run_plays lows d w Hmusic Hlows) as Hp.
  rewrite Hflag in Hp. lia.
Qed.

(** X6.  Saving appends: when the log file holds a list, [save_session_log]
    succeeds, the log then holds the same entries in the same order followed
    by the summary of this session, and no other file is touched. *)
Theorem log_append_keeps_history d w logs :
  fs w !! log_file d = Some (Document (JList logs)) ->
  let '(r, w') := save_session_log d w in
  r = Ok tt /\
  load_historical_logs d w' =
    JList (logs ++ [session_data d (clock w (reads w))]) /\
  (forall p, p <> log_file d -> fs w' !! p = fs w !! p).
Proof.
  intros Hlog. unfold save_session_log, now, read_logs. cbn [fs].
  rewrite Hlog. split; [reflexivity|]. split.
  - unfold load_historical_logs, read_logs, write_file. cbn [fs].
    rewrite lookup_insert_eq. reflexivity.
  - intros p Hp. unfold write_file. cbn [fs].
    rewrite lookup_insert_ne by congruence. reflexivity.
Qed.

(** X7.  A log file that parses to something other than a list makes
    [save_session_log] raise [AttributeError] at [logs.append], after the
    summary was computed and before anything is written: every file is left
    as it was, and [load_historical_logs] keeps returning that value. *)
Theorem log_that_is_no_list_is_kept d w j :
  fs w !! log_file d = Some (Document j) ->
  (forall logs, j <> JList logs) ->
  let '(r, w') := save_session_log d w in
  r = Raise (AttributeError "append") /\
  fs w' = fs w /\
  load_historical_logs d w' = j /\
  load_historical_logs d w = j.
Proof.
  intros Hlog Hj. unfold save_session_log, now, read_logs. cbn [fs].
  rewrite Hlog.
  assert (Hload : load_historical_logs d w = j).
  { unfold load_historical_logs, read_logs. rewrite Hlog. reflexivity. }
  destruct j as [| | | |logs|fields];
    try (repeat split; try reflexivity;
         unfold load_historical_logs, read_logs; cbn [fs];
         rewrite Hlog; reflexivity).
  contradiction (Hj logs). reflexivity.
Qed.

Lemma last_app_nonempty {A} (l s : list A) (x d d' : A) :
  List.last (l ++ x :: s) d = List.last (x :: s) d'.
Proof.
  induction l as [|y l IH].
  - cbn [app]. rewrite !last_cons_default. reflexivity.
  - change ((y :: l) ++ x :: s) with (y :: (l ++ x :: s)).
    rewrite last_cons_default.
    destruct l as [|z l]; cbn [app] in *.
    + rewrite !last_cons_default. reflexivity.
    + rewrite last_cons_default in IH. rewrite !last_cons_default.
      rewrite last_cons_default in IH. exact IH.
Qed.

(** X8.  After a frame in which a face was seen, the session statistics
    report as [current_ear] the ratio the frame's verdict reports (that of
    the last face), and the frame counter counts one frame more. *)
Theorem stats_follow_last_frame e subjects ps d w w1 :
  let '(r, d', _) := process_frame (e :: subjects) ps d w in
  let st := (get_session_stats d' w1).1 in
  st_current_ear st = PyFloat (ear r) /\
  ear r = List.last subjects e /\
  st_total_frames st = total_frames d + 1.
Proof.
  unfold process_frame. cbn [drowsy ear alert_triggered].
  pose proof (subjects_fold ps (e :: subjects)
                (mkResults false 0%float (length (e :: subjects)) false)
                (with_total (total_frames d + 1) d) w) as Hf.
  unfold with_total in Hf.
  destruct (fold_left _ _ _) as [[r' d'] w'].
  destruct Hf as (_ & Htf & _ & Hh & _ & _ & _ & Hear & _).
  cbn [ear ear_history total_frames] in *.
  unfold get_session_stats, now.
  cbn [fst st_current_ear st_total_frames]. rewrite Hh, Hear, Htf.
  rewrite last_cons_default. split; [|split; reflexivity].
  unfold stat_or_zero.
  destruct (ear_history d ++ e :: subjects) as [|x l] eqn:Hl.
  - destruct (ear_history d); discriminate.
  - rewrite <- Hl.
    rewrite (last_app_nonempty (ear_history d) subjects e 0%float e).
    rewrite last_cons_default. reflexivity.
Qed.

(** * Further properties of the live session *)

Lemma dict_get_set_eq key value fields :
  dict_get key (dict_set key value fields) = Some value.
Proof.
  induction fields as [|[k v] fields IH]; cbn.
  - rewrite String.eqb_refl. reflexivity.
  - destruct (String.eqb k key) eqn:Hk; cbn; rewrite Hk; [reflexivity|exact IH].
Qed.

Lemma dict_get_set_ne key key' value fields :
  key' <> key ->
  dict_get key' (dict_set key value fields) = dict_get key' fields.
Proof.
  intros Hne. induction fields as [|[k v] fields IH]; cbn.
  - destruct (String.eqb_spec key key'); [congruence|reflexivity].
  - destruct (String.eqb_spec k key) as [->|Hk]; cbn.
    + destruct (String.eqb_spec key key'); [congruence|reflexivity].
    + destruct (String.eqb_spec k key'); [reflexivity|exact IH].
Qed.

(** Assigning a key of a status dictionary and reading it back gives the
    assigned value, every other key reads as before, and the number of
    entries grows by one exactly when the key was absent. *)
Lemma dict_set_then_get key value fields :
  dict_get key (dict_set key value fields) = Some value /\
  (forall key', key' <> key ->
     dict_get key' (dict_set key value fields) = dict_get key' fields) /\
  length (dict_set key value fields)
  = (match dict_get key fields with
     | Some _ => length fields
     | None => S (length fields)
     end).
Proof.
  split; [apply dict_get_set_eq|]. split; [intros; apply dict_get_set_ne; auto|].
  induction fields as [|[k v] fields IH]; cbn; [reflexivity|].
  destruct (String.eqb k key); cbn; [reflexivity|].
  rewrite IH. destruct (dict_get key fields); reflexivity.
Qed.

(** X9.  When the body of a started thread reaches [Popen] without an
    exception, the status record shows an active session identified by the
    time stamp read first, exactly one detector process has been added, the
    thread waits for it, and the live tab then starts nothing more, however
    often the start button is reported. *)
Theorem begun_session_is_active_and_guarded i sys start_live :
  threads sys !! i = Some Started ->
  let sys' := run_live_detection_begin i NoFailure sys in
  exists status,
    check_live_session_status (world sys') = JDict status /\
    is_active status = true /\
    dict_get "session_id" status
      = Some (JStr (strftime_YmdHMS (clock (world sys) (reads (world sys))))) /\
    threads sys' !! i = Some (Waiting status) /\
    length (procs sys') = S (length (procs sys)) /\
    live_detection_tab start_live false sys' = Ok sys'.
Proof.
  intros Hi. cbn zeta. unfold run_live_detection_begin. rewrite Hi.
  unfold now. cbn [fs clock reads plays].
  eexists. split.
  { unfold check_live_session_status, write_file. cbn [world fs].
    rewrite lookup_insert_eq. reflexivity. }
  split; [reflexivity|]. split; [reflexivity|]. split.
  { cbn [threads]. apply list_lookup_insert_eq.
    apply lookup_lt_Some in Hi. exact Hi. }
  split; [cbn [procs]; rewrite length_app; cbn; lia|].
  unfold live_detection_tab, check_live_session_status, write_file.
  cbn [world fs]. rewrite lookup_insert_eq. reflexivity.
Qed.

(** X10.  When the detector process of a waiting thread has exited, the
    thread rewrites the status record from its own copy: [active] is false,
    [completed] is true, [end_time] is the time read then, every other entry
    is as the thread wrote it at the start, and the live tab offers the
    start again. *)
Theorem ended_session_is_completed i sys status :
  threads sys !! i = Some (Waiting status) ->
  let sys' := run_live_detection_end i sys in
  exists status',
    check_live_session_status (world sys') = JDict status' /\
    is_active status' = false /\
    dict_get "completed" status' = Some (JBool true) /\
    dict_get "end_time" status'
      = Some (JStr (isoformat (clock (world sys) (reads (world sys))))) /\
    (forall key,
       key <> "active"%string -> key <> "end_time"%string ->
       key <> "completed"%string ->
       dict_get key status' = dict_get key status) /\
    threads sys' !! i = Some Finished /\
    procs sys' = procs sys /\
    live_detection_tab true false sys' = Ok (start_live_detection sys').
Proof.
  intros Hi. cbn zeta. unfold run_live_detection_end. rewrite Hi.
  unfold now. cbn [fs clock reads plays].
  set (status' := dict_set "completed" _ _).
  assert (Hactive : is_active status' = false).
  { unfold is_active, status'.
    rewrite !dict_get_set_ne, dict_get_set_eq by discriminate. reflexivity. }
  exists status'. split.
  { unfold check_live_session_status, write_file. cbn [world fs].
    rewrite lookup_insert_eq. reflexivity. }
  split; [exact Hactive|]. split; [apply dict_get_set_eq|]. split.
  { unfold status'. rewrite dict_get_set_ne, dict_get_set_eq by discriminate.
    reflexivity. }
  split.
  { intros key Ha He Hc. unfold status'.
    rewrite !dict_get_set_ne by assumption. reflexivity. }
  split.
  { cbn [threads]. apply list_lookup_insert_eq.
    apply lookup_lt_Some in Hi. exact Hi. }
  split; [reflexivity|].
  unfold live_detection_tab, check_live_session_status, write_file.
  cbn [world fs]. rewrite lookup_insert_eq, Hactive. reflexivity.
Qed.

(** X11.  When the thread body raises, in [os.makedirs] or in [Popen], the
    status record ends as [{"active": False, "error": msg}], no detector
    process is added, the thread is finished, and the live tab offers the
    start again. *)
Theorem failed_start_is_reported i sys f msg :
  threads sys !! i = Some Started ->
  f = MakedirsFails msg \/ f = PopenFails msg ->
  let sys' := run_live_detection_begin i f sys in
  check_live_session_status (world sys')
    = JDict [("active", JBool false); ("error", JStr msg)]%string /\
  threads sys' !! i = Some Finished /\
  procs sys' = procs sys /\
  live_detection_tab true false sys' = Ok (start_live_detection sys').
Proof.
  intros Hi Hf. cbn zeta. unfold run_live_detection_begin. rewrite Hi.
  assert (Hlt : (i < length (threads sys))%nat)
    by (apply lookup_lt_Some in Hi; exact Hi).
  destruct Hf as [-> | ->]; unfold now; cbn [fs clock reads plays].
  - repeat split.
    + unfold check_live_session_status, write_file. cbn [world fs].
      rewrite lookup_insert_eq. reflexivity.
    + cbn [threads]. apply list_lookup_insert_eq. exact Hlt.
    + unfold live_detection_tab, check_live_session_status, write_file.
      cbn [world fs]. rewrite lookup_insert_eq. reflexivity.
  - repeat split.
    + unfold check_live_session_status, write_file. cbn [world fs].
      rewrite lookup_insert_eq. reflexivity.
    + cbn [threads]. apply list_lookup_insert_eq. exact Hlt.
    + unfold live_detection_tab, check_live_session_status, write_file.
      cbn [world fs]. rewrite lookup_insert_eq. reflexivity.
Qed.

(** X12.  Pressing stop while the status record shows an active session
    rewrites the record with [active] false and every other entry unchanged,
    whether or not [pkill] works, and touches no thread; the detectors end
    only if [pkill] works.  The next run of the tab offers the start either
    way, so that after a [pkill] that did not work a restart launches a new
    detector beside the ones still running. *)
Theorem stop_clears_active_only start_live sys status :
  check_live_session_status (world sys) = JDict status ->
  is_active status = true ->
  exists sys',
    live_detection_tab start_live true sys = Ok sys' /\
    procs sys' = (if pkill_ends sys then [] else procs sys) /\
    threads sys' = threads sys /\
    check_live_session_status (world sys')
      = JDict (dict_set "active" (JBool false) status) /\
    (forall key, key <> "active"%string ->
       dict_get key (dict_set "active" (JBool false) status)
       = dict_get key status) /\
    live_detection_tab true false sys' = Ok (start_live_detection sys') /\
    (pkill_ends sys = false ->
     length (procs (run_live_detection_begin (length (threads sys)) NoFailure
                      (start_live_detection sys')))
     = S (length (procs sys))).
Proof.
  intros Hst Hact. unfold live_detection_tab at 1. rewrite Hst, Hact.
  eexists. split; [reflexivity|]. split; [reflexivity|].
  split; [reflexivity|].
  assert (Hcheck : check_live_session_status
                     (write_file status_file
                        (Document (JDict (dict_set "active" (JBool false) status)))
                        (world sys))
                   = JDict (dict_set "active" (JBool false) status)).
  { unfold check_live_session_status, write_file. cbn [fs].
    rewrite lookup_insert_eq. reflexivity. }
  split; [exact Hcheck|]. split.
  { intros key Hk. apply dict_get_set_ne. exact Hk. }
  split.
  { unfold live_detection_tab. cbn [world]. rewrite Hcheck.
    unfold is_active. rewrite dict_get_set_eq. reflexivity. }
  intros Hpkill. rewrite Hpkill.
  unfold start_live_detection, run_live_detection_begin.
  cbn [threads world procs pkill_ends].
  rewrite lookup_app_r by lia. rewrite Nat.sub_diag. cbn [lookup list_lookup].
  unfold now. cbn [procs]. rewrite length_app. cbn [length]. lia.
Qed.

(** X13.  The guard of the live tab reads what the thread has written, not
    what was started: while the status record shows no active session, two
    runs of the tab with the start button reported start two threads, and
    when both reach [Popen] two detector processes run. *)
Theorem two_starts_before_the_status_is_written stop1 stop2 sys status :
  check_live_session_status (world sys) = JDict status ->
  is_active status = false ->
  exists sys1 sys2,
    live_detection_tab true stop1 sys = Ok sys1 /\
    live_detection_tab true stop2 sys1 = Ok sys2 /\
    threads sys2 = threads sys ++ [Started; Started] /\
    length (procs
              (run_live_detection_begin (S (length (threads sys))) NoFailure
                 (run_live_detection_begin (length (threads sys)) NoFailure
                    sys2)))
    = S (S (length (procs sys))).
Proof.
  intros Hst Hact.
  exists (start_live_detection sys),
         (start_live_detection (start_live_detection sys)).
  split. { unfold live_detection_tab. rewrite Hst, Hact. reflexivity. }
  split. { unfold live_detection_tab. cbn [start_live_detection world].
           rewrite Hst, Hact. reflexivity. }
  split. { cbn. rewrite <- app_assoc. reflexivity. }
  unfold start_live_detection. cbn [world threads procs].
  rewrite <- app_assoc. cbn [app].
  unfold run_live_detection_begin at 2. cbn [threads].
  rewrite lookup_app_r by lia. rewrite Nat.sub_diag. cbn [lookup list_lookup].
  unfold now. cbn [fs clock reads plays world procs threads].
  unfold run_live_detection_begin. cbn [threads].
  rewrite list_lookup_insert_ne by lia.
  rewrite lookup_app_r by lia.
  replace (S (length (threads sys)) - length (threads sys))%nat with 1%nat
    by lia.
  cbn [lookup list_lookup]. unfold now. cbn [procs].
  rewrite !length_app. cbn [length]. lia.
Qed.

(** * Further properties of the video analysis *)

(** One call of [process_frame]: its verdict and what it leaves behind. *)
Lemma process_frame_effect subjects ps d w :
  let '(r, d', w') := process_frame subjects ps d w in
  same_config d d' /\
  total_frames d' = total_frames d + 1 /\
  faces_detected r = length subjects /\
  (alert_triggered r = true -> drowsy r = true) /\
  fs w' = fs w /\ clock w' = clock w /\
  (ps = false \/ path_exists (music_path d) w = false -> plays w' = plays w).
Proof.
  unfold process_frame. cbn [drowsy ear alert_triggered].
  pose proof (subjects_fold ps subjects
                (mkResults false 0%float (length subjects) false)
                (with_total (total_frames d + 1) d) w) as Hf.
  unfold with_total in Hf.
  destruct (fold_left _ _ _) as [[r' d'] w'].
  destruct Hf as (Hcfg & Htf & _ & _ & _ & Hdr & Hfd & _ & Hal & Hfs & Hck & Hpl).
  cbn [drowsy faces_detected alert_triggered orb] in *.
  repeat split; try assumption; try apply Hcfg.
  intros Ha. destruct (Hal Ha) as [Hf | Hex]; [discriminate|].
  rewrite Hdr. exact Hex.
Qed.






(** * Properties of the command-line detector *)

(** The loop of [main]: configuration and files are left alone, the frame
    count grows by at most one per turn, the detector's frame counter by at
    most as much, and nothing is played without sound. *)
Lemma main_loop_effect ps record ast tks fc wr d w :
  let '(fc', wr', d', w') := main_loop ps record ast tks fc wr d w in
  same_config d d' /\ fs w' = fs w /\
  fc <= fc' <= fc + Z.of_nat (length tks) /\
  (0 <= total_frames d ->
   0 <= total_frames d' <= total_frames d + (fc' - fc)) /\
  (wr <= wr')%nat /\ Z.of_nat wr' - Z.of_nat wr <= fc' - fc /\
  (record = false -> wr' = wr) /\
  (ps = false -> plays w' = plays w).
Proof.
  revert fc wr d w. induction tks as [|t tks IH]; intros fc wr d w.
  - cbn. unfold same_config. repeat split; auto; lia.
  - destruct t as [subjects current_time key|]; cbn [main_loop].
    2:{ unfold same_config. cbn [length].
        repeat split; auto; lia. }
    destruct (auto_stop_due ast current_time).
    { unfold same_config. cbn [length]. repeat split; auto; lia. }
    pose proof (process_frame_effect subjects ps d w) as Hp.
    destruct (process_frame subjects ps d w) as [[r d1] w1].
    destruct Hp as (Hcfg & Htf & _ & _ & Hfs & _ & Hpl).
    assert (Hstop :
      same_config d d1 /\ fs w1 = fs w /\
      fc <= fc + 1 <= fc + Z.of_nat (length (Tick subjects current_time key :: tks)) /\
      (0 <= total_frames d ->
       0 <= total_frames d1 <= total_frames d + (fc + 1 - fc)) /\
      (wr <= (if record then S wr else wr))%nat /\
      Z.of_nat (if record then S wr else wr) - Z.of_nat wr <= fc + 1 - fc /\
      (record = false -> (if record then S wr else wr) = wr) /\
      (ps = false -> plays w1 = plays w)).
    { cbn [length]. split; [exact Hcfg|]. split; [exact Hfs|].
      split; [lia|]. split; [intros; lia|].
      split; [destruct record; lia|]. split; [destruct record; lia|].
      split; [intros ->; reflexivity|].
      intros Hps. apply Hpl. left. exact Hps. }
    destruct (Z.land key 255 =? 113); [exact Hstop|].
    destruct Hstop as (_ & _ & Hfc & Htot & Hwr & Hwr' & Hrec & Hplay).
    assert (Hnext : forall d2 w2,
      same_config d d2 -> fs w2 = fs w ->
      (0 <= total_frames d ->
       0 <= total_frames d2 <= total_frames d + (fc + 1 - fc)) ->
      (ps = false -> plays w2 = plays w) ->
      let '(fc', wr', d', w') :=
        main_loop ps record ast tks (fc + 1)
          (if record then S wr else wr) d2 w2 in
      same_config d d' /\ fs w' = fs w /\
      fc <= fc' <= fc + Z.of_nat (length (Tick subjects current_time key :: tks)) /\
      (0 <= total_frames d ->
       0 <= total_frames d' <= total_frames d + (fc' - fc)) /\
      (wr <= wr')%nat /\ Z.of_nat wr' - Z.of_nat wr <= fc' - fc /\
      (record = false -> wr' = wr) /\
      (ps = false -> plays w' = plays w)).
    { intros d2 w2 Hcfg2 Hfs2 Htot2 Hplay2.
      specialize (IH (fc + 1) (if record then S wr else wr) d2 w2).
      destruct (main_loop ps record ast tks (fc + 1) _ d2 w2)
        as [[[fc' wr'] d'] w'].
      destruct IH as (Hcfg' & Hfs' & Hfc' & Htot' & Hwr2 & Hwr2' & Hrec' & Hplay').
      cbn [length].
      split; [unfold same_config in *; intuition congruence|].
      split; [congruence|]. split; [lia|].
      split; [intros Hz; specialize (Htot2 Hz); lia|].
      split; [lia|]. split; [lia|].
      split; [intros Hr; rewrite (Hrec' Hr); apply Hrec; exact Hr|].
      intros Hps. rewrite (Hplay' Hps). apply Hplay2. exact Hps. }
    destruct (Z.land key 255 =? 115).
    { unfold get_session_stats, now. apply Hnext; auto. }
    destruct (Z.land key 255 =? 114).
    { unfold reset_session, now. apply Hnext.
      - unfold same_config in *. cbn. intuition.
      - exact Hfs.
      - intros Hz. cbn. specialize (Htot Hz). lia.
      - intros Hps. cbn. apply Hplay. exact Hps. }
    apply Hnext; auto.
Qed.

(** Without auto-stop, and while no turn quits, resets or interrupts, every
    frame read is processed. *)
Lemma main_loop_carries_on ps record tks fc wr d w :
  Forall carries_on tks ->
  let '(fc', wr', d', _) := main_loop ps record None tks fc wr d w in
  fc' = fc + Z.of_nat (length tks) /\
  total_frames d' = total_frames d + Z.of_nat (length tks) /\
  wr' = (if record then wr + length tks else wr)%nat.
Proof.
  intros Htks. revert fc wr d w.
  induction Htks as [|t tks Ht _ IH]; intros fc wr d w.
  - cbn. repeat split; try lia. destruct record; lia.
  - destruct t as [subjects current_time key|]; [|contradiction Ht].
    cbn [main_loop auto_stop_due]. destruct Ht as [Hq Hr].
    pose proof (process_frame_effect subjects ps d w) as Hp.
    destruct (process_frame subjects ps d w) as [[r d1] w1].
    destruct Hp as (_ & Htf & _).
    destruct (Z.eqb_spec (Z.land key 255) 113); [contradiction|].
    destruct (Z.eqb_spec (Z.land key 255) 114) as [|_]; [contradiction|].
    assert (Hnext : forall w2,
      let '(fc', wr', d', _) :=
        main_loop ps record None tks (fc + 1)
          (if record then S wr else wr) d1 w2 in
      fc' = fc + Z.of_nat (length (Tick subjects current_time key :: tks)) /\
      total_frames d' =
        total_frames d + Z.of_nat (length (Tick subjects current_time key :: tks)) /\
      wr' = (if record
             then wr + length (Tick subjects current_time key :: tks)
             else wr)%nat).
    { intros w2.
      specialize (IH (fc + 1) (if record then S wr else wr) d1 w2).
      destruct (main_loop ps record None tks (fc + 1) _ d1 w2)
        as [[[fc' wr'] d'] w'].
      destruct IH as (-> & -> & ->). cbn [length].
      repeat split; try lia. destruct record; lia. }
    destruct (Z.land key 255 =? 115).
    + unfold get_session_stats, now. apply Hnext.
    + apply Hnext.
Qed.

(** The output writer touches nothing but its file. *)
Lemma writer_file_effect args src w :
  plays (writer_file args src w) = plays w /\
  clock (writer_file args src w) = clock w /\
  reads (writer_file args src w) = reads w /\
  forall p,
    fs (writer_file args src w) !! p
    = if records_to args src p then Some Unparseable else fs w !! p.
Proof.
  unfold writer_file, records_to.
  destruct (given (arg_output args) && writer_opens src); cbn [andb].
  - unfold write_file. cbn [plays clock reads fs].
    split; [reflexivity|]. split; [reflexivity|]. split; [reflexivity|].
    intros p. destruct (String.eqb_spec (output_path args) p) as [->|Hne].
    + apply lookup_insert_eq.
    + apply lookup_insert_ne. exact Hne.
  - repeat split.
Qed.

(** The ways through [main]. *)
Lemma main_cases args src w :
  let d0 :=
    mkDetector (arg_thresh args) (arg_frame_check args) (arg_model args)
      (arg_music args) "drowsiness_log.json" 0 (clock w (reads w)) [] 0 0 [] in
  let w0 := mkWorld (fs w) (clock w) (S (reads w)) (plays w) in
  let ready :=
    init_succeeds (libraries src) (arg_model args) (arg_music args) w in
  (ready = false /\ exists e, main args src w = (InitFailed e, w)) \/
  (ready = true /\ opened src = false /\
   main args src w = (SourceNotOpened, w0)) \/
  (ready = true /\ opened src = true /\
   given (arg_output args) && (width src =? 0) = true /\
   main args src w = (WriterSizeError, w0)) \/
  (ready = true /\ opened src = true /\
   given (arg_output args) && (width src =? 0) = false /\
   let '(fc, wr, d, w1) :=
     main_loop (negb (given (arg_video args))) (given (arg_output args))
       (auto_stop_time_of (start_time src) (arg_auto_stop args))
       (ticks src) 0 0 d0 (writer_file args src w0) in
   let w2 := (get_session_stats d w1).2 in
   (PrimFloat.eqb (PrimFloat.sub (end_time src) (start_time src)) 0%float
    = true /\
    main args src w = (SummaryError fc d, w2)) \/
   (PrimFloat.eqb (PrimFloat.sub (end_time src) (start_time src)) 0%float
    = false /\
    main args src w
    = (Completed fc wr d (save_session_log d w2).1,
       writer_file args src (save_session_log d w2).2))).
Proof.
  cbn zeta.
  pose proof (init_outcome (libraries src) (arg_thresh args)
                (arg_frame_check args) (arg_model args) (arg_music args)
                "drowsiness_log.json" w) as Ho.
  unfold main.
  destruct (init_succeeds (libraries src) (arg_model args) (arg_music args) w).
  2:{ left. destruct Ho as (e & Hall & _). rewrite (Hall _ _).
      split; [reflexivity|]. exists e. reflexivity. }
  right. rewrite Ho.
  destruct (opened src); cbn [negb]; [|left; auto].
  right. destruct (given (arg_output args) && (width src =? 0)); [left; auto|].
  right. split; [reflexivity|]. split; [reflexivity|]. split; [reflexivity|].
  destruct (main_loop _ _ _ _ _ _ _ _) as [[[fc wr] d] w1].
  unfold get_session_stats at 1 3 4. unfold now. cbn [snd].
  destruct (PrimFloat.eqb _ _); [left; auto|].
  right. split; [reflexivity|].
  destruct (save_session_log d _) as [saved w3]. reflexivity.
Qed.

Lemma save_session_log_effect d w :
  let '(saved, w') := save_session_log d w in
  plays w' = plays w /\
  match saved with
  | Ok _ =>
      exists logs,
        log_entries (log_file d) w = Some logs /\
        log_entries (log_file d) w'
        = Some (logs ++ [session_data d (clock w (reads w))]) /\
        forall p, p <> log_file d -> fs w' !! p = fs w !! p
  | Raise e =>
      e = AttributeError "append" /\ log_entries (log_file d) w = None /\
      fs w' = fs w
  end.
Proof.
  unfold save_session_log, now, read_logs, log_entries. cbn [fs].
  assert (Hwrite : forall logs,
    (<[log_file d := Document (JList (logs ++ [session_data d (clock w (reads w))]))]>
       (fs w)) !! log_file d
    = Some (Document (JList (logs ++ [session_data d (clock w (reads w))])))).
  { intros logs. apply lookup_insert_eq. }
  destruct (fs w !! log_file d) as [[|[| | | |logs|fields]]|] eqn:Hlog;
    cbn [write_file fs plays]; (split; [reflexivity|]);
    try (repeat split; reflexivity).
  - exists []. rewrite Hwrite. repeat split.
    intros p Hp. rewrite lookup_insert_ne by congruence. reflexivity.
  - exists logs. rewrite Hwrite. repeat split.
    intros p Hp. rewrite lookup_insert_ne by congruence. reflexivity.
  - exists []. rewrite Hwrite. repeat split.
    intros p Hp. rewrite lookup_insert_ne by congruence. reflexivity.
Qed.



(** X18.  [frame_count] counts the frames read, the detector counts the
    frames processed since its last reset: when [main] gets to its summary,
    [0 <= total_frames <= frame_count <= number of frames delivered], no
    more frames were written to the output than were read, none without
    [--output], and the detector still has the configuration of the command
    line. *)
Theorem main_counts_frames args src w :
  match (main args src w).1 with
  | Completed fc wr d _ =>
      0 <= total_frames d <= fc /\ fc <= Z.of_nat (length (ticks src)) /\
      Z.of_nat wr <= fc /\
      (given (arg_output args) = false -> wr = 0%nat) /\
      thresh d = arg_thresh args /\ frame_check d = arg_frame_check args
  | SummaryError fc d =>
      0 <= total_frames d <= fc /\ fc <= Z.of_nat (length (ticks src))
  | _ => True
  end.
Proof.
  pose proof (main_cases args src w) as Hm. cbn zeta in Hm.
  destruct Hm as [(_ & e & ->) | [(_ & _ & ->) | [(_ & _ & _ & ->) | Hm]]];
    try exact I.
  destruct Hm as (_ & _ & _ & Hm).
  pose proof (main_loop_effect (negb (given (arg_video args)))
                (given (arg_output args))
                (auto_stop_time_of (start_time src) (arg_auto_stop args))
                (ticks src) 0 0
                (mkDetector (arg_thresh args) (arg_frame_check args)
                   (arg_model args) (arg_music args) "drowsiness_log.json" 0
                   (clock w (reads w)) [] 0 0 [])
                (writer_file args src
                   (mkWorld (fs w) (clock w) (S (reads w)) (plays w)))) as Hl.
  destruct (main_loop _ _ _ _ _ _ _ _) as [[[fc wr] d] w1].
  destruct Hl as ((Ht & Hfc & _) & _ & Hcount & Htot & _ & Hwr & Hrec & _).
  cbn [thresh frame_check total_frames] in *.
  specialize (Htot ltac:(lia)).
  cbn zeta in Hm. destruct Hm as [(_ & ->) | (_ & ->)]; cbn [fst].
  - lia.
  - repeat split; try assumption; lia.
Qed.

(** X19.  Without [--auto_stop], or with [--auto_stop 0], which line 68
    takes for absent, nothing but the keyboard ends the loop early: when no
    turn quits, resets or interrupts, every frame delivered is processed and,
    with [--output], written. *)
Theorem main_processes_every_frame args src w :
  arg_auto_stop args = None \/ arg_auto_stop args = Some 0 ->
  Forall carries_on (ticks src) ->
  match (main args src w).1 with
  | Completed fc wr d _ =>
      fc = Z.of_nat (length (ticks src)) /\
      total_frames d = Z.of_nat (length (ticks src)) /\
      wr = (if given (arg_output args) then length (ticks src) else 0%nat)
  | SummaryError fc d =>
      fc = Z.of_nat (length (ticks src)) /\
      total_frames d = Z.of_nat (length (ticks src))
  | _ => True
  end.
Proof.
  intros Hauto Hticks.
  pose proof (main_cases args src w) as Hm. cbn zeta in Hm.
  destruct Hm as [(_ & e & ->) | [(_ & _ & ->) | [(_ & _ & _ & ->) | Hm]]];
    try exact I.
  destruct Hm as (_ & _ & _ & Hm).
  assert (Hnone : auto_stop_time_of (start_time src) (arg_auto_stop args)
                  = None).
  { destruct Hauto as [-> | ->]; reflexivity. }
  rewrite Hnone in Hm.
  pose proof (main_loop_carries_on (negb (given (arg_video args)))
                (given (arg_output args)) (ticks src) 0 0
                (mkDetector (arg_thresh args) (arg_frame_check args)
                   (arg_model args) (arg_music args) "drowsiness_log.json" 0
                   (clock w (reads w)) [] 0 0 [])
                (writer_file args src
                   (mkWorld (fs w) (clock w) (S (reads w)) (plays w))) Hticks)
    as Hl.
  destruct (main_loop _ _ _ _ _ _ _ _) as [[[fc wr] d] w1].
  destruct Hl as (Hfc & Htf & Hwr). cbn [total_frames] in Htf.
  cbn zeta in Hm. destruct Hm as [(_ & ->) | (_ & ->)]; cbn [fst].
  - lia.
  - repeat split; try lia. rewrite Hwr. reflexivity.
Qed.

(** X20.  A run on a video file ([--video] given and not empty) never
    plays the alarm, however it ends. *)
Theorem main_on_video_is_silent args src w :
  given (arg_video args) = true ->
  plays (main args src w).2 = plays w.
Proof.
  intros Hvideo.
  pose proof (main_cases args src w) as Hm. cbn zeta in Hm.
  destruct Hm as [(_ & e & ->) | [(_ & _ & ->) | [(_ & _ & _ & ->) | Hm]]];
    try reflexivity.
  destruct Hm as (_ & _ & _ & Hm).
  pose proof (writer_file_effect args src
                (mkWorld (fs w) (clock w) (S (reads w)) (plays w)))
    as (Hwa & _).
  cbn [plays] in Hwa.
  pose proof (main_loop_effect (negb (given (arg_video args)))
                (given (arg_output args))
                (auto_stop_time_of (start_time src) (arg_auto_stop args))
                (ticks src) 0 0
                (mkDetector (arg_thresh args) (arg_frame_check args)
                   (arg_model args) (arg_music args) "drowsiness_log.json" 0
                   (clock w (reads w)) [] 0 0 [])
                (writer_file args src
                   (mkWorld (fs w) (clock w) (S (reads w)) (plays w)))) as Hl.
  destruct (main_loop _ _ _ _ _ _ _ _) as [[[fc wr] d] w1].
  destruct Hl as (_ & _ & _ & _ & _ & _ & _ & Hplays).
  rewrite Hvideo in Hplays. specialize (Hplays eq_refl).
  rewrite Hwa in Hplays.
  cbn zeta in Hm. destruct Hm as [(_ & ->) | (_ & ->)]; cbn [snd].
  - unfold get_session_stats, now. cbn [snd plays]. exact Hplays.
  - pose proof (save_session_log_effect d (get_session_stats d w1).2) as Hs.
    destruct (save_session_log d (get_session_stats d w1).2) as [saved w3].
    destruct Hs as (Hs & _). cbn [snd].
    pose proof (writer_file_effect args src w3) as (Hwb & _).
    rewrite Hwb, Hs.
    unfold get_session_stats, now. cbn [snd plays]. exact Hplays.
Qed.

(** * Properties of the settings and of the installation *)

(** X21.  Applying settings in the middle of a session keeps the counter,
    the counts, the events and the history.  If the new [frame_check] is not
    above the counter of the run in progress, the rest of that run logs no
    event, however long it lasts, although every one of its frames raises
    the alert. *)
Theorem settings_applied_mid_run ps new_thresh new_frame_check lows d w :
  let d1 := settings_tab true new_thresh new_frame_check d in
  (flag d1 = flag d /\ total_frames d1 = total_frames d /\
   drowsy_frames d1 = drowsy_frames d /\
   drowsy_events d1 = drowsy_events d /\ ear_history d1 = ear_history d) /\
  (new_frame_check <= flag d ->
   Forall (fun e => PrimFloat.ltb e new_thresh = true) lows ->
   drowsy_events (run (map (single ps) lows) (d1, w)).1 = drowsy_events d /\
   flag (run (map (single ps) lows) (d1, w)).1
   = flag d + Z.of_nat (length lows) /\
   forall e w',
     PrimFloat.ltb e new_thresh = true ->
     alert_triggered
       (process_frame [e] ps (run (map (single ps) lows) (d1, w)).1 w').1.1
     = true).
Proof.
  cbn zeta. split; [cbn; repeat split; reflexivity|].
  intros Hfc Hlows.
  pose proof (lows_run ps lows (settings_tab true new_thresh new_frame_check d)
                w Hlows) as Hr.
  destruct (run (map (single ps) lows) _) as [d' w1].
  cbn [settings_tab flag frame_check drowsy_events fst] in *.
  destruct Hr as (Hcfg & Hf & Hev).
  replace ((flag d <? new_frame_check)
           && (new_frame_check <=? flag d + Z.of_nat (length lows)))
    with false in Hev by (case_bools; lia).
  split; [exact Hev|]. split; [exact Hf|].
  intros e w' He.
  pose proof (process_frame_single ps d' w' e) as Hs.
  destruct (process_frame [e] ps d' w') as [[r d2] w2].
  destruct Hs as (_ & _ & _ & _ & _ & _ & _ & _ & _ & _ & Hal).
  cbn [fst]. rewrite Hal. destruct Hcfg as (Ht & Hfcd & _).
  cbn [thresh frame_check] in Ht, Hfcd.
  unfold low. rewrite Ht, He, Hfcd, Hf. cbn [andb]. case_bools; lia.
Qed.

Lemma path_exists_write p q c w :
  path_exists p (write_file q c w)
  = if String.eqb q p then true else path_exists p w.
Proof.
  unfold path_exists, write_file. cbn [fs].
  destruct (String.eqb_spec q p) as [->|Hne].
  - rewrite lookup_insert_eq. reflexivity.
  - rewrite lookup_insert_ne by exact Hne. reflexivity.
Qed.

Lemma path_exists_remove p q w :
  path_exists p (remove_file q w)
  = if String.eqb q p then false else path_exists p w.
Proof.
  unfold path_exists, remove_file. cbn [fs].
  destruct (String.eqb_spec q p) as [->|Hne].
  - rewrite lookup_delete_eq. reflexivity.
  - rewrite lookup_delete_ne by exact Hne. reflexivity.
Qed.

Lemma download_models_and_model net extracts w :
  (download_models net extracts w).1 = true ->
  path_exists model_file (download_models net extracts w).2 = true.
Proof.
  unfold download_models.
  destruct (path_exists model_file w) eqn:Hm; cbn [negb fst snd]; [auto|].
  destruct net as [|created]; [destruct extracts|]; cbn [fst snd];
    try discriminate.
  intros _. rewrite path_exists_remove, path_exists_write. reflexivity.
Qed.

(** X22.  [download_models] answers [True] only with the model file in
    place, so that the constructor does not miss it; when the file is
    already there nothing is fetched or changed; after a successful
    download the archive is gone.  A download whose extraction fails
    answers [False] but leaves the model file behind, so that the next call
    answers [True] without fetching anything. *)
Theorem download_models_and_the_model_file net extracts w :
  (let '(ok, w') := download_models net extracts w in
   (ok = true -> path_exists model_file w' = true) /\
   (path_exists model_file w = true -> ok = true /\ w' = w) /\
   (path_exists model_file w = false -> ok = true ->
    path_exists model_archive w' = false)) /\
  (path_exists model_file w = false ->
   (download_models Fetched false w).1 = false /\
   forall net' extracts',
     download_models net' extracts' (download_models Fetched false w).2
     = (true, (download_models Fetched false w).2)).
Proof.
  split.
  - unfold download_models.
    destruct (path_exists model_file w) eqn:Hm; cbn [negb].
    + split; [|split; [auto | discriminate]].
      intros _. exact Hm.
    + destruct net as [|created]; [destruct extracts|].
      * split; [|split; [discriminate|]].
        -- intros _. rewrite path_exists_remove, path_exists_write.
           reflexivity.
        -- intros _ _. rewrite path_exists_remove. reflexivity.
      * split; [discriminate|]. split; discriminate.
      * split; [discriminate|]. split; discriminate.
  - intros Hm. unfold download_models at 1 3 4. rewrite Hm. cbn [negb fst snd].
    split; [reflexivity|]. intros net' extracts'.
    unfold download_models. rewrite path_exists_write. reflexivity.
Qed.

(** X23.  The setup succeeds only if the requirements were installed, and
    then the model file of the detector's default path and the four run
    scripts exist, and so does the alert sound if it could be created; when
    the requirements are not installed it changes no file. *)
Theorem setup_success_means_ready installs net extracts created w :
  let '(ok, w') := setup_main installs net extracts created w in
  (ok = true ->
   installs = true /\
   path_exists model_file w' = true /\
   path_exists "run_webapp.sh" w' = true /\
   path_exists "run_realtime.sh" w' = true /\
   path_exists "run_webapp.bat" w' = true /\
   path_exists "run_realtime.bat" w' = true /\
   (created = true -> path_exists "music.wav" w' = true)) /\
  (installs = false -> ok = false /\ w' = w).
Proof.
  unfold setup_main. destruct installs; cbn [negb];
    [|split; [discriminate | auto]].
  pose proof (download_models_and_model net extracts w) as Hd.
  destruct (download_models net extracts w) as [ok w1]. cbn [fst snd] in Hd.
  destruct ok; cbn [negb]; [|split; discriminate].
  split; [|discriminate]. intros _. pose proof (Hd eq_refl) as Hm.
  assert (Hmodel : path_exists model_file
                     (create_run_scripts (create_sample_audio created w1))
                   = true).
  { unfold create_run_scripts, create_sample_audio.
    rewrite !path_exists_write. cbn.
    destruct (path_exists "music.wav" w1); cbn [negb]; [exact Hm|].
    destruct created; [rewrite path_exists_write; cbn|]; exact Hm. }
  split; [reflexivity|]. split; [exact Hmodel|].
  unfold create_run_scripts at 1 2 3 4 5.
  repeat (split; [rewrite !path_exists_write; reflexivity|]).
  intros ->. unfold create_run_scripts, create_sample_audio.
  rewrite !path_exists_write. cbn.
  destruct (path_exists "music.wav" w1) eqn:Hmu; cbn [negb]; [exact Hmu|].
  rewrite path_exists_write. reflexivity.
Qed.

End Properties.

(** * The claims on concrete sessions

    Evaluated on [Demo.platform], with threshold 0.25 and [frame_check] 3;
    0.125 is a low reading and 0.5 is not. *)

#[local] Existing Instance Demo.platform.

(** C1 fails on the code.  One frame in which two faces are both below the
    threshold counts two drowsy frames for one processed frame, so
    [drowsy_frames <= total_frames] fails and the percentage is 200; the
    video tab, counting drowsy verdicts over the same frame, finds one
    drowsy frame out of one. *)
Lemma two_low_faces_exceed_frames :
  total_frames
    (run [ProcessFrame [0.125; 0.125]%float false]
       (reset_session Demo.detector Demo.world)).1 = 1 /\
  drowsy_frames
    (run [ProcessFrame [0.125; 0.125]%float false]
       (reset_session Demo.detector Demo.world)).1 = 2 /\
  ~ drowsy_frames
      (run [ProcessFrame [0.125; 0.125]%float false]
         (reset_session Demo.detector Demo.world)).1
    <= total_frames
         (run [ProcessFrame [0.125; 0.125]%float false]
            (reset_session Demo.detector Demo.world)).1 /\
  drowsiness_percentage_of
    (run [ProcessFrame [0.125; 0.125]%float false]
       (reset_session Demo.detector Demo.world)).1 = 200%float /\
  exists frame_results,
    (process_video_file_path (mkVideo true 1 30 [[0.125; 0.125]%float])
       Demo.detector Demo.world).1.1 = Ok (Some frame_results) /\
    video_drowsy_frames frame_results = 1%nat /\
    video_total_frames frame_results = 1%nat.
Proof.
  assert (Ht : total_frames
                 (run [ProcessFrame [0.125; 0.125]%float false]
                    (reset_session Demo.detector Demo.world)).1 = 1)
    by (vm_compute; reflexivity).
  assert (Hd : drowsy_frames
                 (run [ProcessFrame [0.125; 0.125]%float false]
                    (reset_session Demo.detector Demo.world)).1 = 2)
    by (vm_compute; reflexivity).
  rewrite Ht, Hd. split; [reflexivity|]. split; [reflexivity|].
  split; [lia|]. split; [vm_compute; reflexivity|].
  eexists. split; [vm_compute; reflexivity|].
  split; vm_compute; reflexivity.
Qed.


(** C8 fails as stated.  A negative threshold and a frame count of 0 are
    accepted: construction returns a detector holding them. *)
Lemma invalid_configuration_is_accepted :
  exists d w',
    init Demo.libraries (-1)%float 0
      "models/shape_predictor_68_face_landmarks.dat"
      "music.wav" "drowsiness_log.json" Demo.world = (Ok d, w') /\
    thresh d = (-1)%float /\ frame_check d = 0.
Proof. eexists _, _. repeat split; vm_compute; reflexivity. Qed.

(** C4 fails as stated.  With the status record showing [active = true],
    [start_live_detection] raises nothing and starts a thread whose body
    launches a second detector process and overwrites the status record. *)
Lemma start_while_active_begins_second_run :
  (exists status,
     check_live_session_status (world Demo.live_system) = JDict status /\
     is_active status = true) /\
  length (procs Demo.live_system) = 1%nat /\
  threads (start_live_detection Demo.live_system) = [Waiting
     [("active", JBool true); ("start_time", JStr "1000000");
      ("output_file", JStr "live_sessions/session_0.mp4");
      ("session_id", JStr "0")]%string; Started] /\
  length (procs (run_live_detection_begin 1 NoFailure
                   (start_live_detection Demo.live_system))) = 2%nat.
Proof.
  split; [eexists; split; vm_compute; reflexivity|].
  repeat split; vm_compute; reflexivity.
Qed.

(** C3 on the detector of the examples: one run of three low frames between
    two frames that are not low logs one event; two runs of three and four
    low frames separated by one frame that is not low log two. *)
Lemma one_event_per_alert_run_witness :
  1 <= frame_check Demo.detector /\
  length (drowsy_events
            (run (map (single false) [0.5; 0.125; 0.125; 0.125; 0.5]%float)
               (reset_session Demo.detector Demo.world)).1) = 1%nat /\
  length (drowsy_events
            (run (map (single false)
                    ([0.125; 0.125; 0.125] ++ [0.5]
                     ++ [0.125; 0.125; 0.125; 0.125])%float)
               (reset_session Demo.detector Demo.world)).1) = 2%nat.
Proof.
  assert (Hfc : 1 <= frame_check Demo.detector) by (cbn; lia).
  split; [exact Hfc|].
  destruct (one_event_per_alert_run false Demo.detector Demo.world Hfc)
    as (_ & _ & Hcount & Htwo).
  split.
  - rewrite Hcount. reflexivity.
  - apply Htwo; repeat constructor; cbn; lia.
Defined.

(** C6 on a session that processed a frame and was reset. *)
Lemma stats_of_empty_session_witness :
  total_frames
    (run [single false 0.125%float; ResetSession]
       (reset_session Demo.detector Demo.world)).1 = 0 /\
  st_drowsiness_percentage
    (get_session_stats
       (run [single false 0.125%float; ResetSession]
          (reset_session Demo.detector Demo.world)).1 Demo.world).1
  = 0%float /\
  st_avg_ear
    (get_session_stats
       (run [single false 0.125%float; ResetSession]
          (reset_session Demo.detector Demo.world)).1 Demo.world).1
  = PyInt 0.
Proof.
  assert (Hz : total_frames
                 (run [single false 0.125%float; ResetSession]
                    (reset_session Demo.detector Demo.world)).1 = 0)
    by reflexivity.
  split; [exact Hz|].
  pose proof (stats_of_empty_session Demo.detector Demo.world
                [single false 0.125%float; ResetSession] Demo.world Hz) as Hs.
  cbv zeta in Hs. destruct Hs as (_ & _ & _ & Hp & _ & Ha & _).
  split; [exact Hp | exact Ha].
Defined.

(** C7 on the world of the examples, where the log file does not exist: a
    save, one frame, and a second save. *)
Lemma log_append_then_load_witness :
  fs Demo.world !! log_file Demo.detector = None /\
  load_historical_logs Demo.detector Demo.world = JList [] /\
  load_historical_logs Demo.detector
    (save_session_log Demo.detector Demo.world).2
  = JList [session_data Demo.detector 0].
Proof.
  assert (Hmiss : fs Demo.world !! log_file Demo.detector = None)
    by reflexivity.
  split; [exact Hmiss|].
  pose proof (log_append_then_load Demo.detector Demo.world
                [single false 0.125%float] (or_introl Hmiss)) as Hl.
  destruct (save_session_log Demo.detector Demo.world) as [r1 w1].
  destruct Hl as (Hempty & _ & Hone & _).
  split; [exact Hempty | exact Hone].
Defined.

(** * The further properties on concrete sessions *)

(** X3 on four low frames with [frame_check = 3]. *)
Lemma events_cost_frame_check_witness :
  1 <= frame_check Demo.detector /\
  3 * Z.of_nat
        (length (drowsy_events
           (run (map (single false) [0.125; 0.125; 0.125; 0.125]%float)
              (reset_session Demo.detector Demo.world)).1))
  <= drowsy_frames
       (run (map (single false) [0.125; 0.125; 0.125; 0.125]%float)
          (reset_session Demo.detector Demo.world)).1.
Proof.
  assert (Hfc : 1 <= frame_check Demo.detector) by (cbn; lia).
  split; [exact Hfc|].
  pose proof (events_cost_frame_check
                (map (single false) [0.125; 0.125; 0.125; 0.125]%float)
                Demo.detector Demo.world Hfc) as [Hcost _].
  exact Hcost.
Defined.

(** X4 on three low frames with sound requested and no music file. *)
Lemma silent_sessions_never_play_witness :
  path_exists (music_path Demo.detector) Demo.world = false /\
  plays (run (map (single true) [0.125; 0.125; 0.125]%float)
           (Demo.detector, Demo.world)).2 = plays Demo.world.
Proof.
  assert (Hm : path_exists (music_path Demo.detector) Demo.world = false)
    by reflexivity.
  split; [exact Hm|].
  apply (silent_sessions_never_play
           (map (single true) [0.125; 0.125; 0.125]%float)
           Demo.detector Demo.world (or_introl Hm)).
Defined.

(** X5 on five low frames with [frame_check = 3]: the alarm is started on
    the third, fourth and fifth. *)
Lemma alarm_restarts_every_alert_frame_witness :
  path_exists (music_path Demo.detector) Demo.world_with_music = true /\
  plays (run (map (single true) [0.125; 0.125; 0.125; 0.125; 0.125]%float)
           (Demo.detector, Demo.world_with_music)).2 = 3%nat.
Proof.
  assert (Hm : path_exists (music_path Demo.detector) Demo.world_with_music
               = true) by reflexivity.
  split; [exact Hm|].
  apply (alarm_restarts_every_alert_frame
           [0.125; 0.125; 0.125; 0.125; 0.125]%float
           Demo.detector Demo.world_with_music).
  - cbn. lia.
  - reflexivity.
  - exact Hm.
  - repeat constructor.
Defined.

(** X6 on a log with one earlier entry. *)
Lemma log_append_keeps_history_witness :
  fs Demo.world_with_log !! log_file Demo.detector
  = Some (Document (JList [JStr "earlier"])) /\
  load_historical_logs Demo.detector
    (save_session_log Demo.detector Demo.world_with_log).2
  = JList [JStr "earlier"; session_data Demo.detector 0].
Proof.
  assert (Hlog : fs Demo.world_with_log !! log_file Demo.detector
                 = Some (Document (JList [JStr "earlier"]))) by reflexivity.
  split; [exact Hlog|].
  pose proof (log_append_keeps_history Demo.detector Demo.world_with_log
                [JStr "earlier"] Hlog) as Hs.
  destruct (save_session_log Demo.detector Demo.world_with_log) as [r w'].
  destruct Hs as (_ & Hload & _). exact Hload.
Defined.

(** X7 on a log that holds the empty dictionary. *)
Lemma log_that_is_no_list_is_kept_witness :
  fs Demo.world_with_bad_log !! log_file Demo.detector
  = Some (Document (JDict [])) /\
  (save_session_log Demo.detector Demo.world_with_bad_log).1
  = Raise (AttributeError "append") /\
  load_historical_logs Demo.detector
    (save_session_log Demo.detector Demo.world_with_bad_log).2 = JDict [].
Proof.
  assert (Hlog : fs Demo.world_with_bad_log !! log_file Demo.detector
                 = Some (Document (JDict []))) by reflexivity.
  split; [exact Hlog|].
  pose proof (log_that_is_no_list_is_kept Demo.detector
                Demo.world_with_bad_log (JDict []) Hlog
                ltac:(intros logs; discriminate)) as Hs.
  destruct (save_session_log Demo.detector Demo.world_with_bad_log) as [r w'].
  destruct Hs as (Hr & _ & Hload & _). split; [exact Hr | exact Hload].
Defined.

(** X9 on the first live session of the examples. *)
Lemma begun_session_is_active_and_guarded_witness :
  threads (start_live_detection (mkSystem Demo.world [] [] true)) !! 0%nat
  = Some Started /\
  live_detection_tab true false Demo.live_system = Ok Demo.live_system.
Proof.
  assert (Hi : threads (start_live_detection (mkSystem Demo.world [] [] true))
               !! 0%nat = Some Started) by reflexivity.
  split; [exact Hi|].
  destruct (begun_session_is_active_and_guarded 0
              (start_live_detection (mkSystem Demo.world [] [] true)) true Hi)
    as (status & _ & _ & _ & _ & _ & Htab).
  exact Htab.
Defined.

(** X10 on the live session of the examples when its detector exits. *)
Lemma ended_session_is_completed_witness :
  threads Demo.live_system !! 0%nat = Some (Waiting Demo.live_status) /\
  exists status',
    check_live_session_status
      (world (run_live_detection_end 0 Demo.live_system)) = JDict status' /\
    is_active status' = false /\
    dict_get "session_id" status' = Some (JStr "0").
Proof.
  assert (Hi : threads Demo.live_system !! 0%nat
               = Some (Waiting Demo.live_status)) by reflexivity.
  split; [exact Hi|].
  destruct (ended_session_is_completed 0 Demo.live_system Demo.live_status Hi)
    as (status' & Hcheck & Hact & _ & _ & Hkeep & _).
  exists status'. split; [exact Hcheck|]. split; [exact Hact|].
  rewrite Hkeep by discriminate. reflexivity.
Defined.

(** X11 on a first live session whose [Popen] raises. *)
Lemma failed_start_is_reported_witness :
  threads (start_live_detection (mkSystem Demo.world [] [] true)) !! 0%nat
  = Some Started /\
  check_live_session_status
    (world (run_live_detection_begin 0 (PopenFails "no python")
              (start_live_detection (mkSystem Demo.world [] [] true))))
  = JDict [("active", JBool false); ("error", JStr "no python")]%string.
Proof.
  assert (Hi : threads (start_live_detection (mkSystem Demo.world [] [] true))
               !! 0%nat = Some Started) by reflexivity.
  split; [exact Hi|].
  destruct (failed_start_is_reported 0
              (start_live_detection (mkSystem Demo.world [] [] true))
              (PopenFails "no python") "no python" Hi
              (or_intror eq_refl)) as (Hcheck & _).
  exact Hcheck.
Defined.

(** X12 on the live session of the examples. *)
Lemma stop_clears_active_only_witness :
  check_live_session_status (world Demo.live_system)
  = JDict Demo.live_status /\
  is_active Demo.live_status = true /\
  exists sys',
    live_detection_tab false true Demo.live_system = Ok sys' /\
    procs sys' = [].
Proof.
  assert (Hst : check_live_session_status (world Demo.live_system)
                = JDict Demo.live_status) by reflexivity.
  assert (Hact : is_active Demo.live_status = true) by reflexivity.
  split; [exact Hst|]. split; [exact Hact|].
  destruct (stop_clears_active_only false Demo.live_system Demo.live_status
              Hst Hact) as (sys' & Htab & Hprocs & _).
  exists sys'. split; [exact Htab | exact Hprocs].
Defined.

(** X13 on a system where no session was ever started. *)
Lemma two_starts_before_the_status_is_written_witness :
  check_live_session_status Demo.world
  = JDict [("active", JBool false)]%string /\
  exists sys2,
    threads sys2 = [Started; Started] /\
    length (procs (run_live_detection_begin 1 NoFailure
                     (run_live_detection_begin 0 NoFailure sys2))) = 2%nat.
Proof.
  assert (Hst : check_live_session_status (world (mkSystem Demo.world [] [] true))
                = JDict [("active", JBool false)]%string) by reflexivity.
  split; [exact Hst|].
  destruct (two_starts_before_the_status_is_written false false
              (mkSystem Demo.world [] [] true) _ Hst eq_refl)
    as (sys1 & sys2 & _ & _ & Hthreads & Hprocs).
  exists sys2. split; [exact Hthreads | exact Hprocs].
Defined.


(** X19 on the camera of the examples: three frames, three processed. *)
Lemma main_processes_every_frame_witness :
  arg_auto_stop Demo.args = None /\
  Forall carries_on (ticks Demo.source) /\
  match (main Demo.args Demo.source Demo.world).1 with
  | Completed fc wr d _ => fc = 3 /\ total_frames d = 3 /\ wr = 0%nat
  | _ => False
  end.
Proof.
  assert (Hticks : Forall carries_on (ticks Demo.source)).
  { unfold Demo.source. cbn [ticks].
    repeat (constructor; [split; vm_compute; discriminate|]). constructor. }
  split; [reflexivity|]. split; [exact Hticks|].
  pose proof (main_processes_every_frame Demo.args Demo.source Demo.world
                (or_introl eq_refl) Hticks) as Hm.
  destruct ((main Demo.args Demo.source Demo.world).1) eqn:Hout;
    try (vm_compute in Hout; discriminate Hout).
  exact Hm.
Defined.

(** X20 on the same frames read from a video file, with the alert sound in
    place. *)
Lemma main_on_video_is_silent_witness :
  given (arg_video Demo.video_args) = true /\
  plays (main Demo.video_args Demo.source Demo.world_with_music).2 = 0%nat.
Proof.
  split; [reflexivity|].
  apply (main_on_video_is_silent Demo.video_args Demo.source
           Demo.world_with_music eq_refl).
Defined.
